(** * deepchem/models/deep.py: the Keras adapters of deepchem

    A shallow embedding of [KerasModel], [MultiTaskDNN], [SingleTaskDNN]
    and [to_one_hot], and the properties of their bookkeeping: one-hot
    labels, task ordering, the named arrays handed to the engine, the
    assembly of predictions and the two persisted files.

    numpy arrays are a shape and the row-major list of their float64
    entries (Rocq's primitive binary64 floats).  Python dictionaries are
    finite maps.  A Python exception is [None]. *)

From Stdlib Require Import Floats Ascii.
From stdpp Require Import gmap strings list pretty sorting.

Local Open Scope string_scope.
Local Open Scope list_scope.

(** ** numpy arrays *)

Record ndarray := mk_ndarray { shape : list nat; data : list float }.

(** Number of entries of an array of the given shape. *)
Definition size_of (s : list nat) : nat := foldr Nat.mul 1 s.

Definition wf (a : ndarray) : Prop := length (data a) = size_of (shape a).

(** [np.zeros(s)] and [np.ones(s)]. *)
Definition np_zeros (s : list nat) : ndarray :=
  mk_ndarray s (replicate (size_of s) 0%float).

Definition np_ones (s : list nat) : ndarray :=
  mk_ndarray s (replicate (size_of s) 1%float).

(** [np.shape(a)[0]]: an IndexError on a zero-dimensional array. *)
Definition shape0 (a : ndarray) : option nat := head (shape a).

(** [enumerate(l)]. *)
Definition enumerate {A} (l : list A) : list (nat * A) :=
  zip (seq 0 (length l)) l.

(** A [for] loop over [items] whose body updates the loop state [s] or
    raises. *)
Fixpoint for_each {A St} (items : list A) (body : A → St → option St) (s : St)
  : option St :=
  match items with
  | [] => Some s
  | x :: rest => s ← body x s; for_each rest body s
  end.

(** The [i]-th item of [a] along its first axis. *)
Definition item (a : ndarray) (i : nat) : ndarray :=
  let r := size_of (tail (shape a)) in
  mk_ndarray (tail (shape a)) (take r (drop (i * r) (data a))).

(** Iterating over an array yields its items along the first axis; a
    zero-dimensional array cannot be iterated (TypeError). *)
Definition iter (a : ndarray) : option (list ndarray) :=
  match shape a with
  | [] => None
  | n :: _ => Some (item a <$> seq 0 n)
  end.

(** [val == c] for an array [val] and a scalar [c]: entrywise IEEE
    equality. *)
Definition eq_scalar (val : ndarray) (c : float) : list bool :=
  (fun x => PrimFloat.eqb x c) <$> data val.

(** The truth value of a boolean array in an [if]: that of its entry
    when it has exactly one, a ValueError when it has several.  An
    empty array counted as false in the numpy releases this code ran
    on. *)
Definition truth (bs : list bool) : option bool :=
  match bs with
  | [] => Some false
  | [b] => Some b
  | _ => None
  end.

(** [a[index] = vals] for a two-dimensional [a] and a row [vals]. *)
Definition set_row (a : ndarray) (index : nat) (vals : list float) : ndarray :=
  let c := size_of (tail (shape a)) in
  mk_ndarray (shape a)
    (take (index * c) (data a) ++ vals ++ drop (index * c + c) (data a)).

(** Row [i] of a two-dimensional array. *)
Definition get_row (a : ndarray) (i : nat) : list float := data (item a i).

(** ** to_one_hot *)

Definition to_one_hot_body (item : nat * ndarray) (y_hot : ndarray)
  : option ndarray :=
  let '(index, val) := item in
  is0 ← truth (eq_scalar val 0);
  if is0 : bool then Some (set_row y_hot index [1; 0]%float)
  else
    is1 ← truth (eq_scalar val 1);
    if is1 : bool then Some (set_row y_hot index [0; 1]%float)
    else Some y_hot.

Definition to_one_hot (y : ndarray) : option ndarray :=
  n_samples ← shape0 y;
  let y_hot := np_zeros [n_samples; 2] in
  vals ← iter y;
  for_each (enumerate vals) to_one_hot_body y_hot.

(** ** More of numpy: what the wrapper calls *)

(** [np.squeeze(a)]: every axis of length one is removed. *)
Definition np_squeeze (a : ndarray) : ndarray :=
  mk_ndarray (filter (fun d => d ≠ 1) (shape a)) (data a).

(** [a[:, ind]]: an IndexError when [a] has fewer than two axes or
    [ind] is not below the length of the second. *)
Definition get_column (a : ndarray) (ind : nat) : option ndarray :=
  match shape a with
  | d0 :: d1 :: rest =>
      if decide (ind < d1) then
        let r := size_of rest in
        Some (mk_ndarray (d0 :: rest)
                (flat_map (fun i => take r (drop ((i * d1 + ind) * r) (data a)))
                   (seq 0 d0)))
      else None
  | _ => None
  end.

(** The index numpy's arg-max reports for one lane: the first NaN if
    there is one, otherwise the first maximum. *)
Fixpoint argmax_go (mp : float) (best i : nat) (l : list float) : nat :=
  match l with
  | [] => best
  | x :: l' =>
      if PrimFloat.is_nan mp then best
      else if negb (PrimFloat.leb x mp) then argmax_go x i (S i) l'
      else argmax_go mp best (S i) l'
  end.

Definition argmax_list (l : list float) : option nat :=
  match l with
  | [] => None
  | x :: l' => Some (argmax_go x 0 1 l')
  end.

(** An integer entry stored in a float64 array. *)
Definition float_of_nat (n : nat) : float :=
  PrimFloat.of_uint63 (Uint63.of_Z (Z.of_nat n)).

(** [np.argmax(a, axis=1)]: an error when [a] has fewer than two axes
    or the second is empty. *)
Definition np_argmax_axis1 (a : ndarray) : option ndarray :=
  match shape a with
  | d0 :: d1 :: rest =>
      let r := size_of rest in
      idx ← mapM (fun ik : nat * nat =>
                    argmax_list
                      ((fun j => default 0%float
                                   (data a !! ((ik.1 * d1 + j) * r + ik.2)))
                         <$> seq 0 d1))
               (i ← seq 0 d0; k ← seq 0 r; [(i, k)]);
      if decide (d1 = 0) then None
      else Some (mk_ndarray (d0 :: rest) (float_of_nat <$> idx))
  | _ => None
  end.

(** A shape without its leading axes of length one. *)
Fixpoint strip_ones (s : list nat) : list nat :=
  match s with
  | 1 :: s' => strip_ones s'
  | _ => s
  end.

(** [a[:, ind] = v] for a two-dimensional [a]: [v] is broadcast to the
    column; leading axes of length one of [v] are ignored, a single
    entry fills the column, and any other shape than the column's is a
    ValueError. *)
Definition assign_column (a : ndarray) (ind : nat) (v : ndarray)
  : option ndarray :=
  match shape a with
  | [n; t] =>
      if decide (ind < t) then
        match strip_ones (shape v) with
        | [] =>
            x ← head (data v);
            Some (mk_ndarray [n; t]
                    (imap (fun p old => if decide (p mod t = ind) then x else old)
                       (data a)))
        | [m] =>
            if decide (m = n) then
              Some (mk_ndarray [n; t]
                      (imap (fun p old =>
                               if decide (p mod t = ind)
                               then default old (data v !! (p / t)) else old)
                         (data a)))
            else None
        | _ => None
        end
      else None
  | _ => None
  end.

(** [w + eps * np.ones(np.shape(w))]. *)
Definition eps : float := 0x1.0624dd2f1a9fcp-10%float.

Definition np_scale (c : float) (a : ndarray) : ndarray :=
  mk_ndarray (shape a) (PrimFloat.mul c <$> data a).

(** Addition of two arrays of one shape. *)
Definition np_add (a b : ndarray) : option ndarray :=
  if decide (shape a = shape b)
  then Some (mk_ndarray (shape a) (zip_with PrimFloat.add (data a) (data b)))
  else None.

(** ** Task names and their order *)

(** Python compares strings position by position; on UTF-8 bytes this is
    [String.leb]. *)
Definition str_le (s1 s2 : string) : Prop := String.leb s1 s2 = true.

Global Instance str_le_dec : RelDecision str_le.
Proof. intros s1 s2. unfold str_le. apply _. Defined.

Definition py_sorted (l : list string) : list string := merge_sort str_le l.

(** [task_types.keys()], in whatever order the dictionary lists them. *)
Definition keys {V} (m : gmap string V) : list string := (map_to_list m).*1.

Definition sorted_tasks (task_types : gmap string string) : list string :=
  py_sorted (keys task_types).

(** ["task%d" % ind] and ["dense_head%d" % ind]. *)
Definition task_name (ind : nat) : string := "task" +:+ pretty ind.
Definition head_name (ind : nat) : string := "dense_head" +:+ pretty ind.

(** ** The engine's graph model *)

(** The values a parameter dictionary holds. *)
#[warnings="-register-all"]
Inductive pyval :=
| PBool (b : bool)
| PInt (z : Z)
| PFloat (f : float)
| PStr (s : string)
| PTuple (l : list pyval).

Inductive layer :=
| DenseLayer (output_dim init activation : pyval)
| DropoutLayer (p : pyval).

(** [Dense(output_dim, init=..., activation=...)]; Keras takes the
    activation to be linear when none is given. *)
Definition Dense (output_dim init : pyval) (activation : option pyval) : layer :=
  DenseLayer output_dim init (default (PStr "linear") activation).

Definition Dropout (p : pyval) : layer := DropoutLayer p.

Record SGD := mk_SGD { lr : pyval; decay : pyval; momentum : pyval; nesterov : pyval }.

(** A [Graph] is what the wrapper has told the engine so far (inputs,
    nodes, outputs, and the optimizer and losses of [compile]), with the
    engine's numeric parameters, opaque here. *)
Record Graph (weights : Type) := mk_Graph {
  g_inputs : list (string * list pyval);
  g_nodes : list (string * layer * string);
  g_outputs : list (string * string);
  g_optimizer : option SGD;
  g_loss : gmap string string;
  g_weights : weights
}.
Arguments mk_Graph {weights}.
Arguments g_inputs {weights}.
Arguments g_nodes {weights}.
Arguments g_outputs {weights}.
Arguments g_optimizer {weights}.
Arguments g_loss {weights}.
Arguments g_weights {weights}.

(** The engine: everything of Keras the wrapper relies on and does not
    define. *)
Class Engine := {
  weights : Type;
  loss_value : Type;
  initial_weights : weights;
  (* the parameters a new node allocates *)
  alloc : layer → string → weights → weights;
  (* whether Keras takes an input of this shape, builds this layer and
     connects it under this name to this input, and compiles the graph
     with this optimizer and these losses; a refusal is an exception *)
  accepts_input : Graph weights → string → list pyval → bool;
  accepts_node : Graph weights → layer → string → string → bool;
  accepts_compile : Graph weights → SGD → gmap string string → bool;
  to_json : Graph weights → string;
  model_from_json : string → option (Graph weights);
  (* the bytes [save_weights] writes, and [load_weights] reading them *)
  dump_weights : Graph weights → string;
  load_weights : Graph weights → string → option (Graph weights);
  train_on_batch :
    Graph weights → gmap string ndarray → gmap string ndarray →
    option (loss_value * Graph weights);
  engine_predict_on_batch :
    Graph weights → gmap string ndarray → option (gmap string ndarray)
}.

(** ** The wrapper *)

Section Wrapper.
Context `{E : Engine}.

(** An instance: the attributes the methods read and write. *)
Record Model := mk_Model {
  task_types : gmap string string;
  model_params : gmap string pyval;
  raw_model : option (Graph weights)
}.

(** Modelled from the spec: the base class [Model] of deepchem.models is
    not among the sources.  Its initializer keeps the task specification
    and the model parameters on the instance (the methods below read
    [self.task_types]), and [get_raw_model] returns the active raw
    model. *)
Definition Model_init (task_types : gmap string string)
    (model_params : gmap string pyval) : Model :=
  mk_Model task_types model_params None.

Definition get_raw_model (self : Model) : option (Graph weights) := raw_model self.

(** What the module imports and does not define: the base class's save
    hook and its file name convention, and [os.path.splitext].  A file
    system maps a path to the content of the file there. *)
Class Env := {
  Model_save : Model → string → gmap string string → option (gmap string string);
  get_model_filename : string → string;
  splitext : string → string * string
}.
Context `{V : Env}.

(** *** Graph construction calls *)

Definition Graph_new : Graph weights :=
  mk_Graph [] [] [] None ∅ initial_weights.

(** The names a node or an output can be fed by: the inputs and the
    nodes added so far. *)
Definition namespace (g : Graph weights) : list string :=
  (g_inputs g).*1 ++ (g_nodes g).*1.*1.

(** [add_input], [add_node] and [add_output] raise on a name already
    taken ("Duplicate node identifier", "Duplicate output identifier")
    and on an input that is neither an input nor a node of the graph
    ("Unknown node/input identifier"). *)
Definition add_input (name : string) (input_shape : list pyval)
    (g : Graph weights) : option (Graph weights) :=
  if decide (name ∈ namespace g) then None
  else if accepts_input g name input_shape then
    Some (mk_Graph (g_inputs g ++ [(name, input_shape)]) (g_nodes g)
            (g_outputs g) (g_optimizer g) (g_loss g) (g_weights g))
  else None.

Definition add_node (l : layer) (name input : string)
    (g : Graph weights) : option (Graph weights) :=
  if decide (name ∈ namespace g) then None
  else if decide (input ∈ namespace g) then
    if accepts_node g l name input then
      Some (mk_Graph (g_inputs g) (g_nodes g ++ [(name, l, input)])
              (g_outputs g) (g_optimizer g) (g_loss g)
              (alloc l name (g_weights g)))
    else None
  else None.

Definition add_output (name input : string) (g : Graph weights)
  : option (Graph weights) :=
  if decide (name ∈ (g_outputs g).*1) then None
  else if decide (input ∈ namespace g) then
    Some (mk_Graph (g_inputs g) (g_nodes g) (g_outputs g ++ [(name, input)])
            (g_optimizer g) (g_loss g) (g_weights g))
  else None.

Definition compile (optimizer : SGD) (loss : gmap string string)
    (g : Graph weights) : option (Graph weights) :=
  if accepts_compile g optimizer loss then
    Some (mk_Graph (g_inputs g) (g_nodes g) (g_outputs g) (Some optimizer) loss
            (g_weights g))
  else None.

(** [(n_inputs,) = v]: [v] must hold exactly one item. *)
Definition unpack1 (v : pyval) : option pyval :=
  match v with
  | PTuple [x] => Some x
  | PStr (String c EmptyString) => Some (PStr (String c EmptyString))
  | _ => None
  end.

(** *** MultiTaskDNN.__init__ *)

Definition add_head (task_types : gmap string string)
    (model_params : gmap string pyval) (top_layer : string)
    (item : nat * string) (model : Graph weights) : option (Graph weights) :=
  let '(ind, task) := item in
  task_type ← task_types !! task;
  model ←
    (if decide (task_type = "classification") then
       init ← model_params !! "init";
       add_node (Dense (PInt 2) init (Some (PStr "softmax")))
         (head_name ind) top_layer model
     else if decide (task_type = "regression") then
       init ← model_params !! "init";
       add_node (Dense (PInt 1) init None)
         (head_name ind) top_layer model
     else Some model);
  add_output (task_name ind) (head_name ind) model.

Definition add_loss (task_types : gmap string string)
    (item : nat * string) (loss_dict : gmap string string)
  : option (gmap string string) :=
  let '(ind, task) := item in
  task_type ← task_types !! task;
  let taskname := task_name ind in
  if decide (task_type = "classification") then
    Some (<[taskname := "binary_crossentropy"]> loss_dict)
  else if decide (task_type = "regression") then
    Some (<[taskname := "mean_squared_error"]> loss_dict)
  else Some loss_dict.

Definition MultiTaskDNN_init (task_types : gmap string string)
    (model_params : gmap string pyval) (initialize_raw_model : bool)
  : option Model :=
  let self := Model_init task_types model_params in
  if initialize_raw_model then
    let sorted_tasks := sorted_tasks task_types in
    n_inputs ← model_params !! "data_shape" ≫= unpack1;
    let model := Graph_new in
    model ← add_input "input" [n_inputs] model;
    nb_hidden ← model_params !! "nb_hidden";
    init ← model_params !! "init";
    activation ← model_params !! "activation";
    model ← add_node (Dense nb_hidden init (Some activation))
               "dense" "input" model;
    dropout ← model_params !! "dropout";
    model ← add_node (Dropout dropout) "dropout" "dense" model;
    let top_layer := "dropout" in
    model ← for_each (enumerate sorted_tasks)
               (add_head task_types model_params top_layer) model;
    loss_dict ← for_each (enumerate sorted_tasks) (add_loss task_types) ∅;
    learning_rate ← model_params !! "learning_rate";
    decay ← model_params !! "decay";
    momentum ← model_params !! "momentum";
    nesterov ← model_params !! "nesterov";
    let sgd := mk_SGD learning_rate decay momentum nesterov in
    model ← compile sgd loss_dict model;
    Some (mk_Model task_types model_params (Some model))
  else Some self.

(** *** get_data_dict, get_sample_weight *)

Definition get_data_dict_body (task_types : gmap string string)
    (y : option ndarray) (item : nat * string) (data : gmap string ndarray)
  : option (gmap string ndarray) :=
  let '(ind, task) := item in
  task_type ← task_types !! task;
  let taskname := task_name ind in
  match y with
  | Some y =>
      if decide (task_type = "classification") then
        col ← get_column y ind;
        hot ← to_one_hot col;
        Some (<[taskname := hot]> data)
      else if decide (task_type = "regression") then
        col ← get_column y ind;
        Some (<[taskname := col]> data)
      else Some data
  | None => Some data
  end.

Definition get_data_dict (self : Model) (X : ndarray) (y : option ndarray)
  : option (gmap string ndarray) :=
  let data := <["input" := X]> ∅ in
  for_each (enumerate (sorted_tasks (task_types self)))
    (get_data_dict_body (task_types self) y) data.

Definition get_sample_weight_body (w : ndarray) (ind : nat)
    (sample_weight : gmap string ndarray) : option (gmap string ndarray) :=
  col ← get_column w ind;
  Some (<[task_name ind := col]> sample_weight).

Definition get_sample_weight (self : Model) (w : ndarray)
  : option (gmap string ndarray) :=
  for_each (seq 0 (length (sorted_tasks (task_types self))))
    (get_sample_weight_body w) ∅.

(** *** fit_on_batch *)

(** The two arguments [fit_on_batch] hands to the engine's
    [train_on_batch]. *)
Definition fit_arguments (self : Model) (X y w : ndarray)
  : option (gmap string ndarray * gmap string ndarray) :=
  w ← np_add w (np_scale eps (np_ones (shape w)));
  data ← get_data_dict self X (Some y);
  sample_weight ← get_sample_weight self w;
  Some (data, sample_weight).

(** The loss the engine reports and the instance with its raw model
    after the step. *)
Definition fit_on_batch (self : Model) (X y w : ndarray)
  : option (loss_value * Model) :=
  '(data, sample_weight) ← fit_arguments self X y w;
  model ← raw_model self;
  '(loss, model) ← train_on_batch model data sample_weight;
  Some (loss, mk_Model (task_types self) (model_params self) (Some model)).

(** *** predict_on_batch *)

(** The body of the loop over the tasks; the [print] calls of the
    regression branch only write to the standard output and are left
    out. *)
Definition predict_body (task_types : gmap string string)
    (y_pred_dict : gmap string ndarray) (item : nat * string)
    (y_pred : ndarray) : option ndarray :=
  let '(ind, task) := item in
  task_type ← task_types !! task;
  let taskname := task_name ind in
  y_pred_task ←
    (if decide (task_type = "classification") then
       out ← y_pred_dict !! taskname;
       np_squeeze <$> np_argmax_axis1 out
     else
       out ← y_pred_dict !! taskname;
       Some (np_squeeze out));
  assign_column y_pred ind y_pred_task.

(** The matrix filled by the loop, before the final squeeze. *)
Definition predict_matrix (self : Model) (X : ndarray) : option ndarray :=
  data ← get_data_dict self X None;
  model ← raw_model self;
  y_pred_dict ← engine_predict_on_batch model data;
  let sorted_tasks := sorted_tasks (task_types self) in
  nb_samples ← shape0 X;
  let nb_tasks := length sorted_tasks in
  let y_pred := np_zeros [nb_samples; nb_tasks] in
  for_each (enumerate sorted_tasks)
    (predict_body (task_types self) y_pred_dict) y_pred.

Definition predict_on_batch (self : Model) (X : ndarray) : option ndarray :=
  np_squeeze <$> predict_matrix self X.

(** *** KerasModel.save and KerasModel.load *)

(** ["%s.%s" % (filename, ext)]. *)
Definition with_ext (filename ext : string) : string :=
  filename +:+ "." +:+ ext.

Definition KerasModel_save (self : Model) (out_dir : string)
    (fs : gmap string string) : option (gmap string string) :=
  fs ← Model_save self out_dir fs;
  model ← get_raw_model self;
  let filename := (splitext (get_model_filename out_dir)).1 in
  let json_filename := with_ext filename "json" in
  let h5_filename := with_ext filename "h5" in
  let json_string := to_json model in
  let fs := <[json_filename := json_string]> fs in
  Some (<[h5_filename := dump_weights model]> fs).

Definition KerasModel_load (self : Model) (model_dir : string)
    (fs : gmap string string) : option Model :=
  let filename := get_model_filename model_dir in
  let filename := (splitext filename).1 in
  let json_filename := with_ext filename "json" in
  let h5_filename := with_ext filename "h5" in
  json_string ← fs !! json_filename;
  model ← model_from_json json_string;
  blob ← fs !! h5_filename;
  model ← load_weights model blob;
  Some (mk_Model (task_types self) (model_params self) (Some model)).

(** *** The classes, their bodies and method calls *)

Inductive class := KerasModel | MultiTaskDNN | SingleTaskDNN.

(** The base each class statement names; the base of [KerasModel] is
    [Model], which is not among the sources. *)
Definition base (c : class) : option class :=
  match c with
  | SingleTaskDNN => Some MultiTaskDNN
  | MultiTaskDNN => Some KerasModel
  | KerasModel => None
  end.

(** A call of one of the methods of the module, with its arguments;
    [call_init] is the instantiation of a class. *)
Inductive call :=
| call_init (task_types : gmap string string) (model_params : gmap string pyval)
    (initialize_raw_model : bool)
| call_save (self : Model) (out_dir : string) (fs : gmap string string)
| call_load (self : Model) (model_dir : string) (fs : gmap string string)
| call_get_data_dict (self : Model) (X : ndarray) (y : option ndarray)
| call_get_sample_weight (self : Model) (w : ndarray)
| call_fit_on_batch (self : Model) (X y w : ndarray)
| call_predict_on_batch (self : Model) (X : ndarray).

(** What a call gives: the instance, the file system, the mapping, the
    loss with the instance, or the array, each with its possible
    exception; [defined_by_Model] when no class of the module defines
    the method and the lookup goes on to [Model]. *)
Inductive outcome :=
| out_instance (r : option Model)
| out_files (r : option (gmap string string))
| out_dict (r : option (gmap string ndarray))
| out_fit (r : option (loss_value * Model))
| out_array (r : option ndarray)
| defined_by_Model.

(** The body of each class: the methods its [def]s provide. *)
Definition KerasModel_body (x : call) : option outcome :=
  match x with
  | call_save self out_dir fs => Some (out_files (KerasModel_save self out_dir fs))
  | call_load self model_dir fs => Some (out_instance (KerasModel_load self model_dir fs))
  | _ => None
  end.

Definition MultiTaskDNN_body (x : call) : option outcome :=
  match x with
  | call_init task_types model_params initialize_raw_model =>
      Some (out_instance
              (MultiTaskDNN_init task_types model_params initialize_raw_model))
  | call_get_data_dict self X y => Some (out_dict (get_data_dict self X y))
  | call_get_sample_weight self w => Some (out_dict (get_sample_weight self w))
  | call_fit_on_batch self X y w => Some (out_fit (fit_on_batch self X y w))
  | call_predict_on_batch self X => Some (out_array (predict_on_batch self X))
  | _ => None
  end.

(** Attribute lookup: the first of the class bodies, nearest class
    first, that defines the method of the call runs it. *)
Fixpoint lookup_method (bodies : list (call → option outcome)) (x : call)
  : outcome :=
  match bodies with
  | [] => defined_by_Model
  | body :: rest =>
      match body x with
      | Some r => r
      | None => lookup_method rest x
      end
  end.

(** [SingleTaskDNN.__init__]: [super(SingleTaskDNN, self).__init__] is
    looked up in the classes that follow [SingleTaskDNN] in its
    resolution order. *)
Definition SingleTaskDNN_init (task_types : gmap string string)
    (model_params : gmap string pyval) (initialize_raw_model : bool)
  : option Model :=
  match lookup_method [MultiTaskDNN_body; KerasModel_body]
          (call_init task_types model_params initialize_raw_model) with
  | out_instance r => r
  | _ => None
  end.

Definition SingleTaskDNN_body (x : call) : option outcome :=
  match x with
  | call_init task_types model_params initialize_raw_model =>
      Some (out_instance
              (SingleTaskDNN_init task_types model_params initialize_raw_model))
  | _ => None
  end.

Definition class_body (c : class) : call → option outcome :=
  match c with
  | KerasModel => KerasModel_body
  | MultiTaskDNN => MultiTaskDNN_body
  | SingleTaskDNN => SingleTaskDNN_body
  end.

(** The resolution order of a class: the class, then that of its
    base. *)
Fixpoint mro_from (fuel : nat) (c : class) : list class :=
  match fuel with
  | 0 => []
  | S fuel => c :: from_option (mro_from fuel) [] (base c)
  end.

Definition mro (c : class) : list class := mro_from 3 c.

(** A method call on an instance of class [c] (for [call_init], the
    instantiation of [c]). *)
Definition invoke (c : class) (x : call) : outcome :=
  lookup_method (class_body <$> mro c) x.

End Wrapper.


(** ** A small engine and environment to run the wrapper on *)

(** An engine with two heads whose outputs depend on the number of
    samples only: [task0] is an [n, 2] array of class scores and
    [task1] an [n, 1] array. *)
Definition demo_predict (data : gmap string ndarray)
  : option (gmap string ndarray) :=
  X ← data !! "input";
  n ← shape0 X;
  Some (<["task1" := mk_ndarray [n; 1] (replicate n 0.5%float)]>
        (<["task0" := mk_ndarray [n; 2]
                        (flat_map (fun _ => [0.25; 0.75]%float) (seq 0 n))]> ∅)).

Definition demo_engine : Engine := {|
  weights := unit;
  loss_value := unit;
  initial_weights := tt;
  alloc := fun _ _ w => w;
  accepts_input := fun _ _ _ => true;
  accepts_node := fun _ _ _ _ => true;
  accepts_compile := fun _ _ _ => true;
  to_json := fun _ => "{}";
  model_from_json := fun _ => Some (mk_Graph [] [] [] None ∅ tt);
  dump_weights := fun _ => "";
  load_weights := fun g _ => Some g;
  train_on_batch := fun g _ _ => Some (tt, g);
  engine_predict_on_batch := fun _ data => demo_predict data
|}.

(** [os.path.splitext] on POSIX paths: the extension starts at the last
    dot of the last path component, leading dots of that component
    apart. *)
Fixpoint split_last_dot (s : string) : option (string * string) :=
  match s with
  | EmptyString => None
  | String c s' =>
      match split_last_dot s' with
      | Some (root, ext) => Some (String c root, ext)
      | None => if Ascii.eqb c "."%char then Some (EmptyString, s) else None
      end
  end.

Fixpoint has_slash (s : string) : bool :=
  match s with
  | EmptyString => false
  | String c s' => Ascii.eqb c "/"%char || has_slash s'
  end.

(** Whether the last path component of [s] has a character other than
    a dot; [seen] tells it for the characters read since the last
    slash. *)
Fixpoint component_has_name (seen : bool) (s : string) : bool :=
  match s with
  | EmptyString => seen
  | String c s' =>
      if Ascii.eqb c "/"%char then component_has_name false s'
      else if Ascii.eqb c "."%char then component_has_name seen s'
      else component_has_name true s'
  end.

Definition posix_splitext (p : string) : string * string :=
  match split_last_dot p with
  | Some (root, ext) =>
      if has_slash ext then (p, EmptyString)
      else if component_has_name false root then (root, ext)
      else (p, EmptyString)
  | None => (p, EmptyString)
  end.

Definition demo_env : @Env demo_engine := {|
  Model_save := fun _ _ fs => Some fs;
  get_model_filename := fun dir => dir +:+ "/model.pkl.gz";
  splitext := posix_splitext
|}.

(** An engine whose weights are the bytes of the weight file and whose
    regression output is the number of those bytes, so that its
    predictions tell one trained model from another. *)
Definition blob_predict (blob : string) (data : gmap string ndarray)
  : option (gmap string ndarray) :=
  X ← data !! "input";
  n ← shape0 X;
  Some (<["task1" := mk_ndarray [n; 1]
                       (replicate n (float_of_nat (String.length blob)))]>
        (<["task0" := mk_ndarray [n; 2]
                        (flat_map (fun _ => [0.25; 0.75]%float) (seq 0 n))]> ∅)).

Definition blob_engine : Engine := {|
  weights := string;
  loss_value := unit;
  initial_weights := EmptyString;
  alloc := fun _ _ w => w;
  accepts_input := fun _ _ _ => true;
  accepts_node := fun _ _ _ _ => true;
  accepts_compile := fun _ _ _ => true;
  to_json := fun _ => "{}";
  model_from_json := fun _ => Some (mk_Graph [] [] [] None ∅ EmptyString);
  dump_weights := fun g => g_weights g;
  load_weights := fun g blob =>
    Some (mk_Graph (g_inputs g) (g_nodes g) (g_outputs g) (g_optimizer g)
            (g_loss g) blob);
  train_on_batch := fun g _ _ => Some (tt, g);
  engine_predict_on_batch := fun g data => blob_predict (g_weights g) data
|}.


Definition demo_tasks : gmap string string :=
  <["b" := "regression"]> (<["a" := "classification"]> ∅).

(** The scenario of a classification task [a] and a regression task
    [b] on four samples. *)
Definition demo_self : @Model demo_engine :=
  @mk_Model demo_engine demo_tasks ∅ (Some (mk_Graph [] [] [] None ∅ tt)).

Definition demo_X : ndarray := mk_ndarray [4; 3] (replicate 12 1%float).

Definition demo_y : ndarray :=
  mk_ndarray [4; 2] [0; 1.5; 1; 2; 0; 0.5; 1; 3]%float.

Definition demo_w : ndarray := np_ones [4; 2].

(** A model with the single classification task [a], and batches of
    one sample. *)
Definition demo_single : @Model demo_engine :=
  @mk_Model demo_engine (<["a" := "classification"]> ∅) ∅
    (Some (mk_Graph [] [] [] None ∅ tt)).

Definition demo_X1 : ndarray := mk_ndarray [1; 3] [1; 2; 3]%float.

(** The head and the loss the specification gives a task of a kind:
    width 2 with softmax and binary cross-entropy for classification,
    width 1 with linear activation and mean squared error for
    regression. *)
Definition expected_head (init : pyval) (task_type : string) : option layer :=
  if decide (task_type = "classification")
  then Some (DenseLayer (PInt 2) init (PStr "softmax"))
  else if decide (task_type = "regression")
  then Some (DenseLayer (PInt 1) init (PStr "linear"))
  else None.

Definition expected_loss (task_type : string) : option string :=
  if decide (task_type = "classification") then Some "binary_crossentropy"
  else if decide (task_type = "regression") then Some "mean_squared_error"
  else None.

(** The node of the head of task [item.2] at index [item.1], if its kind
    has one. *)
Definition expected_head_node (task_types : gmap string string) (init : pyval)
    (item : nat * string) : option (string * layer * string) :=
  (fun l => (head_name item.1, l, "dropout"))
    <$> (task_types !! item.2 ≫= expected_head init).

(** The state of the graph after the heads of the first [k] tasks were
    added. *)
Definition heads_built {W : Type} (tt : gmap string string)
    (n_inputs nb_hidden init activation dropout : pyval) (k : nat)
    (g : Graph W) : Prop :=
  g_inputs g = [("input", [n_inputs])] ∧
  g_nodes g
  = [("dense", DenseLayer nb_hidden init activation, "input");
     ("dropout", DropoutLayer dropout, "dense")]
    ++ omap (expected_head_node tt init) (take k (enumerate (sorted_tasks tt))) ∧
  g_outputs g = ((fun i => (task_name i, head_name i)) <$> seq 0 k) ∧
  g_optimizer g = None ∧ g_loss g = ∅ ∧
  ∀ i task, i < k → sorted_tasks tt !! i = Some task →
    tt !! task = Some "classification" ∨ tt !! task = Some "regression".

Definition demo_params : gmap string pyval :=
  <["data_shape" := PTuple [PInt 3]]>
  (<["nb_hidden" := PInt 16]>
  (<["init" := PStr "glorot_uniform"]>
  (<["activation" := PStr "relu"]>
  (<["dropout" := PFloat 0.5]>
  (<["learning_rate" := PFloat 0.125]>
  (<["decay" := PFloat 0]>
  (<["momentum" := PFloat 0.875]>
  (<["nesterov" := PBool true]> ∅)))))))).

(** The row the loop leaves for one label. *)
Definition one_hot_row (val : float) : list float :=
  if PrimFloat.eqb val 0 then [1; 0]%float
  else if PrimFloat.eqb val 1 then [0; 1]%float
  else [0; 0]%float.

(** One-dimensional and zero-dimensional arrays. *)
Definition vector (l : list float) : ndarray := mk_ndarray [length l] l.
Definition scalar (x : float) : ndarray := mk_ndarray [] [x].

(** * Properties *)

(** ** Floats *)

Lemma float_eqb_0_1 (v : float) :
  PrimFloat.eqb v 0 = true → PrimFloat.eqb v 1 = false.
Proof.
  rewrite !FloatAxioms.eqb_spec.
  destruct (Prim2SF v) as [s | s | | s m e]; cbn; try discriminate; auto.
  - destruct s; reflexivity.
  - destruct s; cbn; discriminate.
Qed.

Lemma eps_times_one : PrimFloat.mul eps 1 = eps.
Proof. reflexivity. Qed.

(** ** to_one_hot *)

Lemma items_of_vector (l : list float) :
  item (vector l) <$> seq 0 (length l) = scalar <$> l.
Proof.
  apply list_eq; intros i. rewrite !list_lookup_fmap.
  destruct (l !! i) as [x|] eqn:Hi.
  - rewrite lookup_seq_lt by (eapply lookup_lt_Some; eauto). simpl.
    unfold item, scalar; simpl. rewrite Nat.mul_1_r.
    by rewrite (drop_S _ _ _ Hi).
  - rewrite lookup_seq_ge; [done|]. by apply lookup_ge_None.
Qed.

Lemma for_each_inv {A St} (l : list A) (body : A → St → option St)
    (Inv : nat → St → Prop) (s0 : St) :
  Inv 0 s0 →
  (∀ k x s, l !! k = Some x → Inv k s →
     ∃ s', body x s = Some s' ∧ Inv (S k) s') →
  ∃ s', for_each l body s0 = Some s' ∧ Inv (length l) s'.
Proof.
  revert Inv s0. induction l as [|x l IH]; intros Inv s0 H0 Hstep.
  - by exists s0.
  - destruct (Hstep 0 x s0 eq_refl H0) as (s1 & Hb & H1).
    simpl. rewrite Hb. simpl.
    apply (IH (fun k => Inv (S k))); [done|].
    intros k y s Hk. by apply (Hstep (S k)).
Qed.

Lemma enumerate_lookup {A} (l : list A) (k : nat) (item : nat * A) :
  enumerate l !! k = Some item → item.1 = k ∧ l !! k = Some item.2.
Proof.
  unfold enumerate. destruct item as [i x]. intros H.
  apply lookup_zip_with_Some in H as (i' & x' & [= <- <-] & Hi & Hx).
  apply lookup_seq in Hi as [-> _]. done.
Qed.

Lemma enumerate_length {A} (l : list A) : length (enumerate l) = length l.
Proof. unfold enumerate. rewrite length_zip_with, length_seq. lia. Qed.

Lemma to_one_hot_body_scalar (index : nat) (v : float) (y_hot : ndarray) :
  to_one_hot_body (index, scalar v) y_hot
  = Some (if PrimFloat.eqb v 0 then set_row y_hot index [1; 0]%float
          else if PrimFloat.eqb v 1 then set_row y_hot index [0; 1]%float
          else y_hot).
Proof.
  simpl. destruct (PrimFloat.eqb v 0); simpl; [done|].
  by destruct (PrimFloat.eqb v 1).
Qed.

Lemma set_row_zeros (N k m : nat) (pre row : list float) :
  length pre = k * 2 → length row = 2 →
  set_row (mk_ndarray [N; 2] (pre ++ replicate (S m * 2) 0%float)) k row
  = mk_ndarray [N; 2] ((pre ++ row) ++ replicate (m * 2) 0%float).
Proof.
  intros Hpre Hrow. unfold set_row; simpl. f_equal.
  rewrite take_app_length' by done.
  rewrite <- Hpre, drop_app_add' by done.
  by rewrite <- app_assoc.
Qed.

Lemma one_hot_row_length (v : float) : length (one_hot_row v) = 2.
Proof. unfold one_hot_row. by repeat case_match. Qed.

Lemma flat_map_rows_length {A} (f : A → list float) (c : nat) (l : list A) :
  (∀ x, length (f x) = c) → length (flat_map f l) = length l * c.
Proof.
  intros Hf. induction l as [|x l IH]; simpl; [done|].
  rewrite length_app, Hf, IH. lia.
Qed.

Lemma to_one_hot_vector (l : list float) :
  to_one_hot (vector l)
  = Some (mk_ndarray [length l; 2] (flat_map one_hot_row l)).
Proof.
  unfold to_one_hot, shape0, iter. cbn [vector shape head mbind option_bind].
  rewrite items_of_vector. set (n := length l).
  destruct (for_each_inv (enumerate (scalar <$> l)) to_one_hot_body
    (fun k y_hot => y_hot = mk_ndarray [n; 2]
       (flat_map one_hot_row (take k l) ++ replicate ((n - k) * 2) 0%float))
    (np_zeros [n; 2])) as (y_hot & -> & ->).
  - unfold np_zeros; simpl. do 2 f_equal. lia.
  - intros k [i val] y_hot Hk ->.
    apply enumerate_lookup in Hk as [Hi Hval]; simpl in Hi, Hval; subst i.
    rewrite list_lookup_fmap in Hval.
    destruct (l !! k) as [v|] eqn:Hv; [|done]. injection Hval as <-.
    assert (k < n) by (eapply lookup_lt_Some; eauto).
    eexists; split; [apply to_one_hot_body_scalar|].
    assert (Hpre : length (flat_map one_hot_row (take k l)) = k * 2).
    { rewrite (flat_map_rows_length _ 2) by apply one_hot_row_length.
      rewrite length_take. fold n. lia. }
    rewrite (take_S_r _ _ _ Hv), flat_map_app. simpl. rewrite app_nil_r.
    replace (n - k) with (S (n - S k)) by lia.
    generalize dependent (flat_map one_hot_row (take k l)); intros pre Hpre.
    unfold one_hot_row.
    destruct (PrimFloat.eqb v 0); [|destruct (PrimFloat.eqb v 1)].
    + by rewrite set_row_zeros.
    + by rewrite set_row_zeros.
    + f_equal. by rewrite <- app_assoc.
  - rewrite enumerate_length, length_fmap. fold n.
    rewrite Nat.sub_diag. subst n. rewrite firstn_all. simpl. by rewrite app_nil_r.
Qed.

Lemma vector_of_shape (y : ndarray) (n : nat) :
  shape y = [n] → wf y → y = vector (data y).
Proof.
  destruct y as [s d]; unfold wf, vector; simpl. intros -> Hd.
  simpl in Hd. f_equal. f_equal. lia.
Qed.

Lemma flat_map_rows_lookup {A} (f : A → list float) (c : nat) (l : list A)
    (i : nat) (x : A) :
  (∀ x, length (f x) = c) → l !! i = Some x →
  take c (drop (i * c) (flat_map f l)) = f x.
Proof.
  intros Hf. revert i. induction l as [|a l IH]; intros i Hi; [done|].
  destruct i as [|i]; simpl in *.
  - injection Hi as ->. rewrite drop_0, take_app_length'; [done|symmetry; apply Hf].
  - rewrite drop_app_add' by (symmetry; apply Hf). by apply IH.
Qed.

(** C1: for a label vector [y] of length [n], [to_one_hot] raises no
    error and returns an array of shape [n, 2] whose row [i] is [1, 0]
    when [y[i] == 0], [0, 1] when [y[i] == 1] and [0, 0] otherwise; row
    [i] depends on [y[i]] alone. *)
Theorem to_one_hot_rows (y : ndarray) (n : nat) :
  shape y = [n] → wf y →
  ∃ y_hot, to_one_hot y = Some y_hot ∧ shape y_hot = [n; 2] ∧ wf y_hot ∧
    ∀ i val, data y !! i = Some val →
      (PrimFloat.eqb val 0 = true → get_row y_hot i = [1; 0]%float) ∧
      (PrimFloat.eqb val 1 = true → get_row y_hot i = [0; 1]%float) ∧
      (PrimFloat.eqb val 0 = false → PrimFloat.eqb val 1 = false →
       get_row y_hot i = [0; 0]%float).
Proof.
  intros Hs Hwf. pose proof (vector_of_shape y n Hs Hwf) as Hy.
  assert (Hn : length (data y) = n).
  { unfold wf in Hwf. rewrite Hs in Hwf. simpl in Hwf. lia. }
  exists (mk_ndarray [n; 2] (flat_map one_hot_row (data y))).
  split; [rewrite Hy, to_one_hot_vector; simpl; by rewrite Hn|].
  split; [done|]. split.
  { unfold wf; simpl.
    rewrite (flat_map_rows_length _ 2) by apply one_hot_row_length. lia. }
  intros i val Hi.
  assert (Hrow : get_row (mk_ndarray [n; 2] (flat_map one_hot_row (data y))) i
                 = one_hot_row val).
  { unfold get_row, item; simpl.
    by apply (flat_map_rows_lookup one_hot_row 2); [apply one_hot_row_length|]. }
  rewrite Hrow. unfold one_hot_row. repeat split.
  - by intros ->.
  - intros H1. destruct (PrimFloat.eqb val 0) eqn:H0; [|by rewrite H1].
    apply float_eqb_0_1 in H0. congruence.
  - by intros -> ->.
Qed.

Lemma to_one_hot_rows_witness :
  ∃ y_hot, to_one_hot (vector [0; 1; 2; 1]%float) = Some y_hot ∧
    shape y_hot = [4; 2] ∧ wf y_hot ∧
    ∀ i val, [0; 1; 2; 1]%float !! i = Some val →
      (PrimFloat.eqb val 0 = true → get_row y_hot i = [1; 0]%float) ∧
      (PrimFloat.eqb val 1 = true → get_row y_hot i = [0; 1]%float) ∧
      (PrimFloat.eqb val 0 = false → PrimFloat.eqb val 1 = false →
       get_row y_hot i = [0; 0]%float).
Proof.
  apply (to_one_hot_rows (vector [0; 1; 2; 1]%float) 4); reflexivity.
Defined.

Example to_one_hot_ex :
  to_one_hot (vector [0; 1; 2; 1]%float)
  = Some (mk_ndarray [4; 2] [1; 0; 0; 1; 0; 0; 0; 1]%float).
Proof. reflexivity. Qed.

(** ** Names *)

Lemma task_name_inj (i j : nat) : task_name i = task_name j → i = j.
Proof.
  unfold task_name. intros H. simpl in H.
  injection H as H. change (pretty i = pretty j) in H.
  by apply (inj pretty) in H.
Qed.

Lemma head_name_inj (i j : nat) : head_name i = head_name j → i = j.
Proof.
  unfold head_name. intros H. simpl in H.
  injection H as H. change (pretty i = pretty j) in H.
  by apply (inj pretty) in H.
Qed.

Lemma task_name_not_input (i : nat) : task_name i ≠ "input".
Proof. unfold task_name. simpl. discriminate. Qed.

Example task_name_12 : task_name 12 = "task12" ∧ head_name 0 = "dense_head0".
Proof. split; reflexivity. Qed.

(** ** The order of the tasks *)

Lemma string_compare_refl (s : string) : String.compare s s = Eq.
Proof.
  induction s as [|c s IH]; simpl; [done|].
  unfold Ascii.compare. by rewrite N.compare_refl.
Qed.

Lemma string_compare_lt_trans (a b c : string) :
  String.compare a b = Lt → String.compare b c = Lt → String.compare a c = Lt.
Proof.
  revert b c. induction a as [|x a IH]; intros [|y b] [|z c]; simpl; try done.
  unfold Ascii.compare.
  destruct (N.compare_spec (Ascii.N_of_ascii x) (Ascii.N_of_ascii y)) as [Exy|Lxy|Gxy];
    try done;
    (destruct (N.compare_spec (Ascii.N_of_ascii y) (Ascii.N_of_ascii z)) as [Eyz|Lyz|Gyz];
     try done); intros Hab Hbc.
  - rewrite Exy, Eyz, N.compare_refl. eauto.
  - rewrite Exy. by rewrite (proj2 (N.compare_lt_iff _ _) Lyz).
  - rewrite <- Eyz. by rewrite (proj2 (N.compare_lt_iff _ _) Lxy).
  - by rewrite (proj2 (N.compare_lt_iff _ _) (N.lt_trans _ _ _ Lxy Lyz)).
Qed.

Global Instance str_le_total : Total str_le.
Proof. intros a b. apply String.leb_total. Qed.

Global Instance str_le_antisymm : AntiSymm (=) str_le.
Proof. intros a b. apply String.leb_antisym. Qed.

Global Instance str_le_trans : Transitive str_le.
Proof.
  intros a b c. unfold str_le, String.leb.
  destruct (String.compare a b) eqn:Hab; [| |done].
  - apply String.compare_eq_iff in Hab as ->. done.
  - destruct (String.compare b c) eqn:Hbc; [| |done]; intros _ _.
    + apply String.compare_eq_iff in Hbc as <-. by rewrite Hab.
    + by rewrite (string_compare_lt_trans a b c).
Qed.

Lemma str_le_ne_ltb (a b : string) : str_le a b → a ≠ b → String.ltb a b = true.
Proof.
  unfold str_le, String.leb, String.ltb.
  destruct (String.compare a b) eqn:Hab; try done.
  apply String.compare_eq_iff in Hab. done.
Qed.

Lemma sorted_tasks_perm (tt : gmap string string) : sorted_tasks tt ≡ₚ keys tt.
Proof. apply merge_sort_Permutation. Qed.

Lemma sorted_tasks_NoDup (tt : gmap string string) : NoDup (sorted_tasks tt).
Proof. rewrite sorted_tasks_perm. apply NoDup_fst_map_to_list. Qed.

Lemma sorted_tasks_elem (tt : gmap string string) (task : string) :
  task ∈ sorted_tasks tt ↔ is_Some (tt !! task).
Proof.
  rewrite sorted_tasks_perm. unfold keys. rewrite list_elem_of_fmap. split.
  - intros ([k v] & -> & H). apply elem_of_map_to_list in H. by exists v.
  - intros [v H]. exists (task, v). split; [done|]. by apply elem_of_map_to_list.
Qed.

Lemma sorted_tasks_lookup (tt : gmap string string) (i : nat) (task : string) :
  sorted_tasks tt !! i = Some task → is_Some (tt !! task).
Proof. intros H. apply sorted_tasks_elem. by eapply list_elem_of_lookup_2. Qed.

Lemma StronglySorted_lookup_lt {A} (R : relation A) (l : list A) (i j : nat) (a b : A) :
  StronglySorted R l → i < j → l !! i = Some a → l !! j = Some b → R a b.
Proof.
  intros Hl. revert i j. induction Hl as [|x l Hl IH Hx]; intros i j Hij Hi Hj.
  - done.
  - destruct j as [|j]; [lia|]. destruct i as [|i]; simpl in *.
    + injection Hi as <-. rewrite Forall_forall in Hx. apply Hx.
      by eapply list_elem_of_lookup_2.
    + apply (IH i j); [lia|done..].
Qed.

Lemma sorted_tasks_ascending (tt : gmap string string) (i j : nat) (a b : string) :
  i < j → sorted_tasks tt !! i = Some a → sorted_tasks tt !! j = Some b →
  String.ltb a b = true.
Proof.
  intros Hij Hi Hj. apply str_le_ne_ltb.
  - apply (StronglySorted_lookup_lt str_le (sorted_tasks tt) i j); [|done..].
    apply StronglySorted_merge_sort; apply _.
  - intros ->. pose proof (NoDup_lookup _ _ _ _ (sorted_tasks_NoDup tt) Hi Hj). lia.
Qed.

(** ** Columns of a matrix *)

Lemma flat_map_singletons {A B} (f : A → list B) (g : A → B) (l : list A) :
  (∀ x, x ∈ l → f x = [g x]) → flat_map f l = g <$> l.
Proof.
  induction l as [|x l IH]; intros Hf; simpl; [done|].
  rewrite Hf, IH; [done| |left]. intros y Hy. apply Hf. by right.
Qed.

Lemma matrix_index_lt (n t r c : nat) : r < n → c < t → r * t + c < n * t.
Proof. intros Hr Hc. nia. Qed.

Lemma get_column_matrix (a : ndarray) (n t ind : nat) :
  shape a = [n; t] → wf a → ind < t →
  ∃ l, get_column a ind = Some (vector l) ∧ length l = n ∧
       ∀ r, r < n → l !! r = data a !! (r * t + ind).
Proof.
  intros Hs Hwf Hind. unfold wf in Hwf. rewrite Hs in Hwf. simpl in Hwf.
  set (g := fun r => default 0%float (data a !! (r * t + ind))).
  exists (g <$> seq 0 n). split; [|split].
  - unfold get_column. rewrite Hs. rewrite decide_True by done. simpl.
    rewrite (flat_map_singletons _ g).
    + unfold vector. by rewrite length_fmap, length_seq.
    + intros r Hr. apply elem_of_seq in Hr.
      assert (Hlt : r * t + ind < length (data a)).
      { rewrite Hwf. replace (n * (t * 1)) with (n * t) by lia.
        apply matrix_index_lt; lia. }
      apply lookup_lt_is_Some in Hlt as [x Hx].
      unfold g. rewrite Nat.mul_1_r, Hx. simpl.
      by rewrite (drop_S _ _ _ Hx).
  - by rewrite length_fmap, length_seq.
  - intros r Hr. rewrite list_lookup_fmap, lookup_seq_lt by done. simpl.
    assert (Hlt : r * t + ind < length (data a)).
    { rewrite Hwf. replace (n * (t * 1)) with (n * t) by lia.
      by apply matrix_index_lt. }
    apply lookup_lt_is_Some in Hlt as [x Hx]. unfold g. by rewrite Hx.
Qed.

(** ** Loops that fill a dictionary under the names [task0], [task1], ... *)

Lemma for_each_entries {A V} (items : list A) (entry : A → option V)
    (body : A → gmap string V → option (gmap string V)) (d0 : gmap string V) :
  (∀ k x d, items !! k = Some x →
     body x d = Some (from_option (fun v => <[task_name k := v]> d) d (entry x))) →
  ∃ d, for_each items body d0 = Some d ∧
    (∀ k x, items !! k = Some x →
       d !! task_name k = from_option Some (d0 !! task_name k) (entry x)) ∧
    (∀ key, (∀ k, k < length items → key ≠ task_name k) → d !! key = d0 !! key).
Proof.
  intros Hbody.
  destruct (for_each_inv items body (fun n d =>
    (∀ k x, k < n → items !! k = Some x →
       d !! task_name k = from_option Some (d0 !! task_name k) (entry x)) ∧
    (∀ key, (∀ k, k < n → key ≠ task_name k) → d !! key = d0 !! key)) d0)
    as (d & Hd & Hknown & Hother).
  - split; [lia|done].
  - intros n x d Hx [Hknown Hother]. eexists; split; [by apply Hbody|].
    split.
    + intros k x' Hk Hx'. destruct (decide (k = n)) as [->|Hne].
      * assert (x' = x) as -> by congruence.
        destruct (entry x); simpl; [by rewrite lookup_insert_eq|].
        apply Hother. intros k Hk' Heq. apply task_name_inj in Heq. lia.
      * assert (d !! task_name k = from_option Some (d0 !! task_name k) (entry x'))
          as <- by (apply Hknown; [lia|done]).
        destruct (entry x); simpl; [|done]. apply lookup_insert_ne.
        intros Heq. by apply task_name_inj in Heq.
    + intros key Hkey. rewrite <- Hother by (intros k Hk; apply Hkey; lia).
      destruct (entry x); simpl; [|done]. apply lookup_insert_ne.
      intros Heq. by apply (Hkey n); [lia|].
  - exists d. split; [done|]. split; [|done].
    intros k x Hx. apply Hknown; [|done]. by eapply lookup_lt_Some.
Qed.

(** ** Weights with the epsilon added *)

Lemma zip_with_replicate_r {A B C} (f : A → B → C) (l : list A) (b : B) :
  zip_with f l (replicate (length l) b) = (fun x => f x b) <$> l.
Proof. induction l as [|x l IH]; simpl; [done|]. by rewrite IH. Qed.

Lemma add_eps (w : ndarray) :
  wf w →
  np_add w (np_scale eps (np_ones (shape w)))
  = Some (mk_ndarray (shape w) ((fun x => PrimFloat.add x eps) <$> data w)).
Proof.
  intros Hwf. unfold np_add, np_scale, np_ones. simpl.
  rewrite decide_True by done. do 2 f_equal.
  rewrite fmap_replicate, eps_times_one, <- Hwf. apply zip_with_replicate_r.
Qed.

Example posix_splitext_ex :
  posix_splitext "out/model.pkl.gz" = ("out/model.pkl", ".gz")
  ∧ posix_splitext "out.d/model" = ("out.d/model", "")
  ∧ posix_splitext "out/.hidden" = ("out/.hidden", "")
  ∧ posix_splitext "out/..a.b" = ("out/..a", ".b").
Proof. repeat split; reflexivity. Qed.

(** ** Packaging of inputs and weights *)

Section Packaging.
Context {E : Engine}.

Lemma get_data_dict_inference (self : Model) (X : ndarray) :
  get_data_dict self X None = Some (<["input" := X]> ∅).
Proof.
  unfold get_data_dict.
  destruct (for_each_inv (enumerate (sorted_tasks (task_types self)))
    (get_data_dict_body (task_types self) None)
    (fun _ d => d = <["input" := X]> ∅) (<["input" := X]> ∅))
    as (d & -> & ->); [done| |done].
  intros k [i task] d Hk ->. apply enumerate_lookup in Hk as [_ Hk].
  apply sorted_tasks_lookup in Hk as [kind Hkind]. simpl in *.
  rewrite Hkind. eauto.
Qed.

(** The entry the loop of [get_data_dict] writes for one task. *)
Lemma get_data_dict_labels (self : Model) (X y : ndarray) (n : nat) :
  shape y = [n; length (sorted_tasks (task_types self))] → wf y →
  ∃ dict, get_data_dict self X (Some y) = Some dict ∧
    dict !! "input" = Some X ∧
    (∀ i task kind,
       sorted_tasks (task_types self) !! i = Some task →
       task_types self !! task = Some kind →
       ∃ col, get_column y i = Some (vector col) ∧ length col = n ∧
         (∀ r, r < n →
            col !! r = data y !! (r * length (sorted_tasks (task_types self)) + i)) ∧
         dict !! task_name i
         = if decide (kind = "classification") then to_one_hot (vector col)
           else if decide (kind = "regression") then Some (vector col)
           else None) ∧
    (∀ key, key ≠ "input" →
       (∀ i, i < length (sorted_tasks (task_types self)) → key ≠ task_name i) →
       dict !! key = None).
Proof.
  intros Hs Hwf. unfold get_data_dict.
  set (ts := sorted_tasks (task_types self)) in *.
  set (entry := fun item : nat * string =>
    kind ← task_types self !! item.2;
    if decide (kind = "classification") then get_column y item.1 ≫= to_one_hot
    else if decide (kind = "regression") then get_column y item.1
    else None).
  destruct (for_each_entries (enumerate ts) entry
    (get_data_dict_body (task_types self) (Some y)) (<["input" := X]> ∅))
    as (dict & Hdict & Hknown & Hother).
  { intros k [i task] d Hk. apply enumerate_lookup in Hk as [Hi Hk].
    simpl in Hi, Hk; subst i.
    destruct (sorted_tasks_lookup _ _ _ Hk) as [kind Hkind].
    destruct (get_column_matrix y n (length ts) k Hs Hwf) as (col & Hcol & _).
    { by eapply lookup_lt_Some. }
    unfold entry; simpl. rewrite Hkind; simpl. rewrite Hcol; simpl.
    repeat case_decide; try done. by rewrite to_one_hot_vector. }
  exists dict. split; [done|]. split; [|split].
  - rewrite Hother; [apply lookup_insert_eq|].
    intros k _ Heq. symmetry in Heq. by apply task_name_not_input in Heq.
  - intros i task kind Hi Hkind.
    destruct (get_column_matrix y n (length ts) i Hs Hwf) as (col & Hcol & Hlen & Hcols).
    { by eapply lookup_lt_Some. }
    exists col. repeat split; [done..|].
    rewrite (Hknown i (i, task)).
    2:{ unfold enumerate. apply lookup_zip_with_Some. exists i, task.
        split; [done|]. split; [|done]. apply lookup_seq. split; [done|].
        by eapply lookup_lt_Some. }
    unfold entry; simpl. rewrite Hkind; simpl. rewrite Hcol; simpl.
    rewrite lookup_insert_ne by (intros Heq; symmetry in Heq;
                                 by apply task_name_not_input in Heq).
    rewrite lookup_empty.
    repeat case_decide; try done. by rewrite to_one_hot_vector.
  - intros key Hin Hkey. rewrite Hother.
    + by rewrite lookup_insert_ne, lookup_empty.
    + intros k Hk. apply Hkey. by rewrite enumerate_length in Hk.
Qed.

Lemma get_sample_weight_columns (self : Model) (w : ndarray) (n : nat) :
  shape w = [n; length (sorted_tasks (task_types self))] → wf w →
  ∃ sample_weight, get_sample_weight self w = Some sample_weight ∧
    (∀ i, i < length (sorted_tasks (task_types self)) →
       ∃ col, get_column w i = Some (vector col) ∧ length col = n ∧
         (∀ r, r < n →
            col !! r = data w !! (r * length (sorted_tasks (task_types self)) + i)) ∧
         sample_weight !! task_name i = Some (vector col)) ∧
    (∀ key,
       (∀ i, i < length (sorted_tasks (task_types self)) → key ≠ task_name i) →
       sample_weight !! key = None).
Proof.
  intros Hs Hwf. unfold get_sample_weight.
  set (t := length (sorted_tasks (task_types self))) in *.
  destruct (for_each_entries (seq 0 t) (get_column w)
    (get_sample_weight_body w) ∅) as (sw & Hsw & Hknown & Hother).
  { intros k ind d Hk. apply lookup_seq in Hk as [-> Hk]. simpl.
    destruct (get_column_matrix w n t k Hs Hwf Hk) as (col & Hcol & _).
    unfold get_sample_weight_body. by rewrite Hcol. }
  exists sw. split; [done|]. split.
  - intros i Hi.
    destruct (get_column_matrix w n t i Hs Hwf Hi) as (col & Hcol & Hlen & Hcols).
    exists col. repeat split; [done..|].
    rewrite (Hknown i i) by (by apply lookup_seq). by rewrite Hcol.
  - intros key Hkey. rewrite Hother; [done|].
    intros k Hk. apply Hkey. by rewrite length_seq in Hk.
Qed.

End Packaging.

(** C4: [get_data_dict(X, y)] maps ["input"] to [X] and, when [y] is
    given, for each task [i] in sorted order ["task{i}"] to
    [to_one_hot(y[:, i])] for a classification task and to [y[:, i]] for
    a regression task, and holds nothing else; when [y] is absent the
    mapping holds ["input"] alone. *)
Theorem get_data_dict_packaging {E : Engine} (self : Model) (X y : ndarray)
    (n : nat) :
  shape y = [n; length (sorted_tasks (task_types self))] → wf y →
  get_data_dict self X None = Some {["input" := X]} ∧
  ∃ dict, get_data_dict self X (Some y) = Some dict ∧
    dict !! "input" = Some X ∧
    (∀ i task, sorted_tasks (task_types self) !! i = Some task →
       ∃ col, get_column y i = Some col ∧
         (task_types self !! task = Some "classification" →
          ∃ hot, to_one_hot col = Some hot ∧ dict !! task_name i = Some hot) ∧
         (task_types self !! task = Some "regression" →
          dict !! task_name i = Some col) ∧
         (task_types self !! task ≠ Some "classification" →
          task_types self !! task ≠ Some "regression" →
          dict !! task_name i = None)) ∧
    (∀ key, key ≠ "input" →
       (∀ i, i < length (sorted_tasks (task_types self)) → key ≠ task_name i) →
       dict !! key = None).
Proof.
  intros Hs Hwf. split; [apply get_data_dict_inference|].
  destruct (get_data_dict_labels self X y n Hs Hwf)
    as (dict & Hdict & Hinput & Htasks & Hother).
  exists dict. repeat split; [done..| |done].
  intros i task Hi.
  destruct (sorted_tasks_lookup _ _ _ Hi) as [kind Hkind].
  destruct (Htasks i task kind Hi Hkind) as (col & Hcol & _ & _ & Hentry).
  exists (vector col). split; [done|]. rewrite Hkind. repeat split.
  - intros [= ->]. rewrite decide_True in Hentry by done.
    rewrite to_one_hot_vector in Hentry |- *. eauto.
  - intros [= ->]. by rewrite decide_False, decide_True in Hentry.
  - intros Hc Hr. rewrite !decide_False in Hentry; congruence.
Qed.

Lemma get_data_dict_packaging_witness :
  get_data_dict demo_self demo_X None = Some {["input" := demo_X]} ∧
  ∃ dict, get_data_dict demo_self demo_X (Some demo_y) = Some dict ∧
    dict !! "input" = Some demo_X ∧
    (∀ i task, sorted_tasks (task_types demo_self) !! i = Some task →
       ∃ col, get_column demo_y i = Some col ∧
         (task_types demo_self !! task = Some "classification" →
          ∃ hot, to_one_hot col = Some hot ∧ dict !! task_name i = Some hot) ∧
         (task_types demo_self !! task = Some "regression" →
          dict !! task_name i = Some col) ∧
         (task_types demo_self !! task ≠ Some "classification" →
          task_types demo_self !! task ≠ Some "regression" →
          dict !! task_name i = None)) ∧
    (∀ key, key ≠ "input" →
       (∀ i, i < length (sorted_tasks (task_types demo_self)) → key ≠ task_name i) →
       dict !! key = None).
Proof.
  apply (get_data_dict_packaging demo_self demo_X demo_y 4);
    vm_compute; reflexivity.
Defined.

Example get_data_dict_demo :
  map_to_list <$> get_data_dict demo_self demo_X (Some demo_y)
  = Some [("input", demo_X);
          ("task1", vector [1.5; 2; 0.5; 3]%float);
          ("task0", mk_ndarray [4; 2] [1; 0; 0; 1; 1; 0; 0; 1]%float)].
Proof. vm_compute. reflexivity. Qed.

(** C3: [fit_on_batch(X, y, w)] hands the engine's [train_on_batch] a
    sample-weight mapping that maps, for each task index [i],
    ["task{i}"] to the column [i] of [w] with 0.001 added to every
    entry, and holds nothing else.  The float added is the binary64
    value of the literal 0.001, which is [4611686018427388 * 2^-62],
    within half a unit in the last place of one thousandth. *)
#[warnings="-inexact-float"] Theorem fit_on_batch_sample_weight {E : Engine} (self : Model)
    (X y w : ndarray) (n : nat) :
  shape y = [n; length (sorted_tasks (task_types self))] → wf y →
  shape w = [n; length (sorted_tasks (task_types self))] → wf w →
  ∃ dict sample_weight,
    fit_arguments self X y w = Some (dict, sample_weight) ∧
    fit_on_batch self X y w
    = (model ← raw_model self;
       '(loss, model) ← train_on_batch model dict sample_weight;
       Some (loss, mk_Model (task_types self) (model_params self) (Some model))) ∧
    (∀ i, i < length (sorted_tasks (task_types self)) →
       ∃ col, sample_weight !! task_name i = Some (vector col) ∧
         length col = n ∧
         ∀ r, r < n →
           col !! r
           = (fun x => PrimFloat.add x 0.001%float)
               <$> data w !! (r * length (sorted_tasks (task_types self)) + i)) ∧
    (∀ key,
       (∀ i, i < length (sorted_tasks (task_types self)) → key ≠ task_name i) →
       sample_weight !! key = None) ∧
    Prim2SF 0.001%float = S754_finite false 4611686018427388 (-62) ∧
    (Z.abs (1000 * 4611686018427388 - 2 ^ 62) <= 500)%Z.
Proof.
  intros Hsy Hwfy Hsw Hwfw.
  destruct (get_data_dict_labels self X y n Hsy Hwfy) as (dict & Hdict & _).
  set (w' := mk_ndarray (shape w) ((fun x => PrimFloat.add x eps) <$> data w)).
  destruct (get_sample_weight_columns self w' n) as (sw & Hsw' & Hcols & Hother).
  { done. }
  { unfold wf, w'; simpl. by rewrite length_fmap. }
  assert (Hargs : fit_arguments self X y w = Some (dict, sw)).
  { unfold fit_arguments. rewrite add_eps by done. fold w'. simpl.
    rewrite Hdict. simpl. by rewrite Hsw'. }
  exists dict, sw. split; [done|].
  split; [|split; [|split; [done|split; [reflexivity|vm_compute; discriminate]]]].
  - unfold fit_on_batch. by rewrite Hargs.
  - intros i Hi. destruct (Hcols i Hi) as (col & _ & Hlen & Hentries & Hlook).
    exists col. repeat split; [done..|].
    intros r Hr. rewrite (Hentries r Hr). unfold w'; simpl.
    by rewrite list_lookup_fmap.
Qed.

#[warnings="-inexact-float"] Lemma fit_on_batch_sample_weight_witness :
  ∃ dict sample_weight,
    fit_arguments demo_self demo_X demo_y demo_w = Some (dict, sample_weight) ∧
    fit_on_batch demo_self demo_X demo_y demo_w
    = (model ← raw_model demo_self;
       '(loss, model) ← train_on_batch model dict sample_weight;
       Some (loss, mk_Model (task_types demo_self) (model_params demo_self)
                     (Some model))) ∧
    (∀ i, i < length (sorted_tasks (task_types demo_self)) →
       ∃ col, sample_weight !! task_name i = Some (vector col) ∧
         length col = 4 ∧
         ∀ r, r < 4 →
           col !! r
           = (fun x => PrimFloat.add x 0.001%float)
               <$> data demo_w
                     !! (r * length (sorted_tasks (task_types demo_self)) + i)) ∧
    (∀ key,
       (∀ i, i < length (sorted_tasks (task_types demo_self)) → key ≠ task_name i) →
       sample_weight !! key = None) ∧
    Prim2SF 0.001%float = S754_finite false 4611686018427388 (-62) ∧
    (Z.abs (1000 * 4611686018427388 - 2 ^ 62) <= 500)%Z.
Proof.
  apply (fit_on_batch_sample_weight demo_self demo_X demo_y demo_w 4);
    vm_compute; reflexivity.
Defined.

Example fit_arguments_demo :
  (fun args => map_to_list args.2) <$> fit_arguments demo_self demo_X demo_y demo_w
  = Some [("task1", vector (replicate 4 (PrimFloat.add 1 eps)));
          ("task0", vector (replicate 4 (PrimFloat.add 1 eps)))].
Proof. vm_compute. reflexivity. Qed.

(** ** Construction *)

Lemma enumerate_lookup_2 {A} (l : list A) (i : nat) (x : A) :
  l !! i = Some x → enumerate l !! i = Some (i, x).
Proof.
  intros Hi. unfold enumerate. apply lookup_zip_with_Some. exists i, x.
  split; [done|]. split; [|done]. apply lookup_seq. split; [done|].
  by eapply lookup_lt_Some.
Qed.

Lemma enumerate_fst {A} (l : list A) : (enumerate l).*1 = seq 0 (length l).
Proof. unfold enumerate. apply fst_zip. by rewrite length_seq. Qed.

Lemma enumerate_elem {A} (l : list A) (i : nat) (x : A) :
  (i, x) ∈ enumerate l → l !! i = Some x.
Proof.
  intros H. apply list_elem_of_lookup in H as [k Hk].
  by apply enumerate_lookup in Hk as [<- ?].
Qed.

Lemma enumerate_take_index {A} (l : list A) (k i : nat) :
  i ∈ (take k (enumerate l)).*1 → i < k.
Proof.
  rewrite fmap_take, enumerate_fst. intros H.
  apply elem_of_take in H as (j & Hj & Hlt).
  apply lookup_seq in Hj as [-> _]. done.
Qed.

Lemma for_each_inv_Some {A St} (l : list A) (body : A → St → option St)
    (Inv : nat → St → Prop) (s0 s' : St) :
  for_each l body s0 = Some s' → Inv 0 s0 →
  (∀ k x s s1, l !! k = Some x → Inv k s → body x s = Some s1 → Inv (S k) s1) →
  Inv (length l) s'.
Proof.
  revert Inv s0. induction l as [|x l IH]; intros Inv s0 Hrun H0 Hstep.
  - by injection Hrun as <-.
  - simpl in Hrun. destruct (body x s0) as [s1|] eqn:Hx; [|done].
    apply (IH (fun k => Inv (S k)) s1); [done|by apply (Hstep 0 x s0)|].
    intros k y s s2 Hk. by apply (Hstep (S k)).
Qed.

Lemma head_node_name (tt : gmap string string) (init : pyval)
    (item : nat * string) (node : string * layer * string) :
  expected_head_node tt init item = Some node → node.1.1 = head_name item.1.
Proof.
  unfold expected_head_node. destruct (tt !! item.2 ≫= expected_head init); [|done].
  by intros [= <-].
Qed.

Lemma head_nodes_names (tt : gmap string string) (init : pyval)
    (items : list (nat * string)) (name : string) :
  name ∈ (omap (expected_head_node tt init) items).*1.*1 →
  ∃ i, i ∈ items.*1 ∧ name = head_name i.
Proof.
  intros H. apply list_elem_of_fmap in H as ([name' inp] & -> & H).
  apply list_elem_of_fmap in H as ([[name'' l] inp'] & [= <- <-] & H).
  apply list_elem_of_omap in H as (item & Hitem & Hnode).
  exists item.1. split; [by apply list_elem_of_fmap_2|].
  by apply head_node_name in Hnode.
Qed.


Lemma head_name_not_trunk (i : nat) :
  head_name i ≠ "input" ∧ head_name i ≠ "dense" ∧ head_name i ≠ "dropout".
Proof. unfold head_name. repeat split; intros H; simpl in H; discriminate H. Qed.

Lemma expected_head_kind (init : pyval) (kind : string) (l : layer) :
  expected_head init kind = Some l →
  (kind = "classification" ∧ l = DenseLayer (PInt 2) init (PStr "softmax"))
  ∨ (kind = "regression" ∧ l = DenseLayer (PInt 1) init (PStr "linear")).
Proof.
  unfold expected_head. repeat case_decide; intros [= <-]; [by left|by right].
Qed.

Section Construction.
Context {E : Engine}.

Lemma add_input_Some (name : string) (input_shape : list pyval)
    (g g' : Graph weights) :
  add_input name input_shape g = Some g' →
  g' = mk_Graph (g_inputs g ++ [(name, input_shape)]) (g_nodes g) (g_outputs g)
         (g_optimizer g) (g_loss g) (g_weights g).
Proof. unfold add_input. repeat case_match; by intros [= <-]. Qed.

Lemma add_node_Some (l : layer) (name input : string) (g g' : Graph weights) :
  add_node l name input g = Some g' →
  g' = mk_Graph (g_inputs g) (g_nodes g ++ [(name, l, input)]) (g_outputs g)
         (g_optimizer g) (g_loss g) (alloc l name (g_weights g)).
Proof. unfold add_node. repeat case_match; by intros [= <-]. Qed.

Lemma compile_Some (optimizer : SGD) (loss : gmap string string)
    (g g' : Graph weights) :
  compile optimizer loss g = Some g' →
  g' = mk_Graph (g_inputs g) (g_nodes g) (g_outputs g) (Some optimizer) loss
         (g_weights g).
Proof. unfold compile. case_match; by intros [= <-]. Qed.

Lemma add_input_accepted (name : string) (input_shape : list pyval)
    (g : Graph weights) :
  name ∉ namespace g → accepts_input g name input_shape = true →
  add_input name input_shape g
  = Some (mk_Graph (g_inputs g ++ [(name, input_shape)]) (g_nodes g)
            (g_outputs g) (g_optimizer g) (g_loss g) (g_weights g)).
Proof. intros Hname Hacc. unfold add_input. by rewrite decide_False, Hacc. Qed.

Lemma add_node_accepted (l : layer) (name input : string) (g : Graph weights) :
  name ∉ namespace g → input ∈ namespace g →
  accepts_node g l name input = true →
  add_node l name input g
  = Some (mk_Graph (g_inputs g) (g_nodes g ++ [(name, l, input)]) (g_outputs g)
            (g_optimizer g) (g_loss g) (alloc l name (g_weights g))).
Proof.
  intros Hname Hinput Hacc. unfold add_node.
  by rewrite decide_False, decide_True, Hacc.
Qed.

Variables (tt : gmap string string) (mp : gmap string pyval).
Variables (n_inputs nb_hidden init activation dropout : pyval).
Hypothesis Hinit : mp !! "init" = Some init.

Let built := heads_built (W := weights) tt n_inputs nb_hidden init activation dropout.

Lemma heads_built_names (k : nat) (g : Graph weights) :
  built k g →
  (head_name k ∉ namespace g) ∧ ("dropout" ∈ namespace g) ∧
  (task_name k ∉ (g_outputs g).*1).
Proof.
  intros (Hin & Hnodes & Houts & _). unfold namespace.
  rewrite Hin, Hnodes, Houts. rewrite !fmap_app. cbn [fmap list_fmap fst app].
  destruct (head_name_not_trunk k) as (Hi & Hd & Hp).
  split; [|split].
  - rewrite !not_elem_of_cons. do 3 (split; [done|]).
    intros H. apply head_nodes_names in H as (i & Hi' & Heq).
    apply head_name_inj in Heq. subst i. apply enumerate_take_index in Hi'. lia.
  - rewrite !elem_of_cons. auto.
  - rewrite <- list_fmap_compose. intros H.
    apply list_elem_of_fmap in H as (i & Heq & Hi'). simpl in Heq.
    apply task_name_inj in Heq. subst i. apply elem_of_seq in Hi'. lia.
Qed.

Lemma add_head_spec (k : nat) (task : string) (g : Graph weights) :
  built k g → sorted_tasks tt !! k = Some task →
  add_head tt mp "dropout" (k, task) g
  = (l ← tt !! task ≫= expected_head init;
     if accepts_node g l (head_name k) "dropout" then
       Some (mk_Graph (g_inputs g) (g_nodes g ++ [(head_name k, l, "dropout")])
               (g_outputs g ++ [(task_name k, head_name k)])
               (g_optimizer g) (g_loss g) (alloc l (head_name k) (g_weights g)))
     else None).
Proof.
  intros Hg Hk. destruct (heads_built_names k g Hg) as (Hfresh & Hdrop & Hout).
  destruct (sorted_tasks_lookup _ _ _ Hk) as [kind Hkind].
  assert (Hnode : ∀ l,
    (g1 ← add_node l (head_name k) "dropout" g;
     add_output (task_name k) (head_name k) g1)
    = if accepts_node g l (head_name k) "dropout" then
        Some (mk_Graph (g_inputs g) (g_nodes g ++ [(head_name k, l, "dropout")])
                (g_outputs g ++ [(task_name k, head_name k)])
                (g_optimizer g) (g_loss g) (alloc l (head_name k) (g_weights g)))
      else None).
  { intros l. unfold add_node. rewrite decide_False, decide_True by done.
    destruct (accepts_node g l (head_name k) "dropout"); [|done].
    cbn [mbind option_bind]. unfold add_output. cbn [g_outputs].
    rewrite decide_False by done. rewrite decide_True; [done|].
    unfold namespace. cbn [g_inputs g_nodes]. rewrite !fmap_app.
    apply elem_of_app. right. apply elem_of_app. right. simpl.
    apply list_elem_of_here. }
  unfold add_head, expected_head. rewrite Hkind, Hinit. cbn [mbind option_bind].
  destruct (decide (kind = "classification")); [apply Hnode|].
  destruct (decide (kind = "regression")); [apply Hnode|].
  cbn [mbind option_bind]. unfold add_output.
  rewrite decide_False by done. by rewrite decide_False.
Qed.

Lemma heads_built_step (k : nat) (task : string) (g g' : Graph weights) :
  built k g → sorted_tasks tt !! k = Some task →
  add_head tt mp "dropout" (k, task) g = Some g' →
  built (S k) g'.
Proof.
  intros Hg Hk Hrun. rewrite (add_head_spec k task g Hg Hk) in Hrun.
  destruct Hg as (Hin & Hnodes & Houts & Hopt & Hloss & Hkinds).
  destruct (tt !! task ≫= expected_head init) as [l|] eqn:Hl; [|done].
  cbn [mbind option_bind] in Hrun.
  destruct (accepts_node g l (head_name k) "dropout"); [|done].
  injection Hrun as <-. unfold built, heads_built.
  cbn [g_inputs g_nodes g_outputs g_optimizer g_loss].
  split; [done|]. split; [|split; [|split; [done|split; [done|]]]].
  - rewrite Hnodes, (take_S_r _ _ (k, task)) by (by apply enumerate_lookup_2).
    rewrite omap_app, <- app_assoc. do 3 f_equal. simpl.
    unfold expected_head_node. simpl. by rewrite Hl.
  - by rewrite Houts, seq_S, fmap_app.
  - intros i task' Hi Htask'. destruct (decide (i = k)) as [->|Hne].
    + assert (task' = task) as -> by congruence.
      destruct (tt !! task) as [kind|]; [|done]. simpl in Hl.
      apply expected_head_kind in Hl as [[-> _]|[-> _]]; auto.
    + apply (Hkinds i); [lia|done].
Qed.

Lemma add_heads_Some (g0 g : Graph weights) :
  built 0 g0 →
  for_each (enumerate (sorted_tasks tt)) (add_head tt mp "dropout") g0 = Some g →
  built (length (sorted_tasks tt)) g.
Proof.
  intros H0 Hrun. rewrite <- (enumerate_length (sorted_tasks tt)).
  apply (for_each_inv_Some _ _ built _ _ Hrun H0).
  intros k [i task] s s1 Hk Hs Hbody.
  apply enumerate_lookup in Hk as [Hi Hk]. simpl in Hi, Hk; subst i.
  by eapply heads_built_step.
Qed.

Lemma add_heads_succeed (g0 : Graph weights) :
  built 0 g0 →
  (∀ task kind, tt !! task = Some kind →
     kind = "classification" ∨ kind = "regression") →
  (∀ g l name,
     l = DenseLayer (PInt 2) init (PStr "softmax")
     ∨ l = DenseLayer (PInt 1) init (PStr "linear") →
     accepts_node g l name "dropout" = true) →
  ∃ g, for_each (enumerate (sorted_tasks tt)) (add_head tt mp "dropout") g0
       = Some g.
Proof.
  intros H0 Hkinds Haccepts.
  destruct (for_each_inv (enumerate (sorted_tasks tt))
              (add_head tt mp "dropout") built g0 H0) as (g & Hg & _); [|eauto].
  intros k [i task] s Hk Hs.
  apply enumerate_lookup in Hk as [Hi Hk]. simpl in Hi, Hk; subst i.
  destruct (sorted_tasks_lookup _ _ _ Hk) as [kind Hkind].
  assert (∃ l, tt !! task ≫= expected_head init = Some l ∧
               accepts_node s l (head_name k) "dropout" = true) as (l & Hl & Hacc).
  { rewrite Hkind. simpl. unfold expected_head.
    destruct (Hkinds task kind Hkind) as [-> | ->].
    - rewrite decide_True by done. eauto.
    - rewrite decide_False, decide_True by done. eauto. }
  pose proof (add_head_spec k task s Hs Hk) as Hspec.
  rewrite Hl in Hspec. cbn [mbind option_bind] in Hspec. rewrite Hacc in Hspec.
  eexists. split; [exact Hspec|]. by eapply heads_built_step.
Qed.

Lemma loss_dict_entries :
  ∃ loss_dict,
    for_each (enumerate (sorted_tasks tt)) (add_loss tt) ∅ = Some loss_dict ∧
    (∀ i task, sorted_tasks tt !! i = Some task →
       loss_dict !! task_name i = tt !! task ≫= expected_loss) ∧
    (∀ key, (∀ i, i < length (sorted_tasks tt) → key ≠ task_name i) →
       loss_dict !! key = None).
Proof.
  destruct (for_each_entries (enumerate (sorted_tasks tt))
    (fun item : nat * string => tt !! item.2 ≫= expected_loss)
    (add_loss tt) ∅) as (d & Hd & Hknown & Hother).
  { intros k [i task] d Hk. apply enumerate_lookup in Hk as [Hi Hk].
    simpl in Hi, Hk; subst i.
    destruct (sorted_tasks_lookup _ _ _ Hk) as [kind Hkind].
    unfold add_loss, expected_loss; simpl. rewrite Hkind; simpl.
    by repeat case_decide. }
  exists d. split; [done|]. split.
  - intros i task Hi. rewrite (Hknown i (i, task)).
    + simpl. rewrite lookup_empty. by destruct (tt !! task ≫= expected_loss).
    + unfold enumerate. apply lookup_zip_with_Some. exists i, task.
      split; [done|]. split; [|done]. apply lookup_seq. split; [done|].
      by eapply lookup_lt_Some.
  - intros key Hkey. rewrite Hother; [done|].
    intros k Hk. apply Hkey. by rewrite enumerate_length in Hk.
Qed.

End Construction.

(** What a successful construction implies. *)
Lemma MultiTaskDNN_init_inv {E : Engine} (tt : gmap string string)
    (mp : gmap string pyval) (self : Model) :
  MultiTaskDNN_init tt mp true = Some self →
  ∃ n_inputs nb_hidden init activation dropout model,
    (mp !! "data_shape" ≫= unpack1 = Some n_inputs ∧
     mp !! "nb_hidden" = Some nb_hidden ∧
     mp !! "init" = Some init ∧ mp !! "activation" = Some activation ∧
     mp !! "dropout" = Some dropout ∧
     ∃ learning_rate decay momentum nesterov,
       mp !! "learning_rate" = Some learning_rate ∧
       mp !! "decay" = Some decay ∧ mp !! "momentum" = Some momentum ∧
       mp !! "nesterov" = Some nesterov ∧
       g_optimizer model = Some (mk_SGD learning_rate decay momentum nesterov)) ∧
    self = mk_Model tt mp (Some model) ∧
    g_nodes model
    = [("dense", DenseLayer nb_hidden init activation, "input");
       ("dropout", DropoutLayer dropout, "dense")]
      ++ omap (expected_head_node tt init) (enumerate (sorted_tasks tt)) ∧
    g_inputs model = [("input", [n_inputs])] ∧
    g_outputs model
    = ((fun i => (task_name i, head_name i)) <$> seq 0 (length (sorted_tasks tt))) ∧
    (∀ i task, sorted_tasks tt !! i = Some task →
       g_loss model !! task_name i = tt !! task ≫= expected_loss) ∧
    (∀ key, (∀ i, i < length (sorted_tasks tt) → key ≠ task_name i) →
       g_loss model !! key = None) ∧
    (∀ i task, sorted_tasks tt !! i = Some task →
       tt !! task = Some "classification" ∨ tt !! task = Some "regression").
Proof.
  unfold MultiTaskDNN_init. intros Hself.
  destruct (mp !! "data_shape" ≫= unpack1) as [n_inputs|]; [|done].
  cbn [mbind option_bind] in Hself.
  destruct (add_input "input" [n_inputs] Graph_new) as [g1|] eqn:Hg1; [|done].
  apply add_input_Some in Hg1. cbn [mbind option_bind] in Hself.
  destruct (mp !! "nb_hidden") as [nb_hidden|]; [|done].
  destruct (mp !! "init") as [init|] eqn:Hinit; [|done].
  destruct (mp !! "activation") as [activation|]; [|done].
  cbn [mbind option_bind] in Hself.
  destruct (add_node _ "dense" "input" g1) as [g2|] eqn:Hg2; [|done].
  apply add_node_Some in Hg2. cbn [mbind option_bind] in Hself.
  destruct (mp !! "dropout") as [dropout|]; [|done].
  cbn [mbind option_bind] in Hself.
  destruct (add_node _ "dropout" "dense" g2) as [g3|] eqn:Hg3; [|done].
  apply add_node_Some in Hg3. cbn [mbind option_bind] in Hself.
  destruct (for_each _ (add_head _ _ _) g3) as [g4|] eqn:Hg4; [|done].
  cbn [mbind option_bind] in Hself.
  apply (add_heads_Some tt mp n_inputs nb_hidden init activation dropout Hinit)
    in Hg4.
  2:{ subst g3 g2 g1. unfold heads_built. cbn.
      repeat split; try done. intros i task Hi. lia. }
  destruct Hg4 as (Hin & Hnodes & Houts & _ & _ & Hkinds).
  destruct (loss_dict_entries tt) as (loss_dict & Hdict & Hknown & Hother).
  rewrite Hdict in Hself. cbn [mbind option_bind] in Hself.
  destruct (mp !! "learning_rate") as [learning_rate|]; [|done].
  destruct (mp !! "decay") as [decay|]; [|done].
  destruct (mp !! "momentum") as [momentum|]; [|done].
  destruct (mp !! "nesterov") as [nesterov|]; [|done].
  cbn [mbind option_bind] in Hself.
  destruct (compile _ loss_dict g4) as [g5|] eqn:Hg5; [|done].
  apply compile_Some in Hg5. injection Hself as <-. subst g5.
  exists n_inputs, nb_hidden, init, activation, dropout.
  exists (mk_Graph (g_inputs g4) (g_nodes g4) (g_outputs g4)
            (Some (mk_SGD learning_rate decay momentum nesterov)) loss_dict
            (g_weights g4)).
  split.
  { do 5 (split; [done|]).
    exists learning_rate, decay, momentum, nesterov. by repeat split. }
  split; [done|]. cbn. rewrite firstn_all2 in Hnodes
    by (by rewrite enumerate_length).
  split; [done|]. split; [done|]. split; [done|]. split; [done|].
  split; [done|]. intros i task Hi. apply (Hkinds i); [|done].
  by eapply lookup_lt_Some.
Qed.

(** C6: with [initialize_raw_model] true, task kinds that are all
    classification or regression, the nine parameters present and
    layers and an optimizer the engine accepts, the constructor builds
    the shared input, dense and dropout layers and then, for each task
    in sorted order, one dense head fed by the dropout layer (width 2
    with softmax for classification, width 1 with linear activation for
    regression), exposed as output [task{i}]; the loss of [task{i}] is
    binary cross-entropy for a classification head and mean squared
    error for a regression head; one SGD optimizer is built from the
    learning rate, decay, momentum and Nesterov flag of the
    parameters. *)
Theorem MultiTaskDNN_construction {E : Engine} (tt : gmap string string)
    (mp : gmap string pyval)
    (n_inputs nb_hidden init activation dropout : pyval)
    (learning_rate decay momentum nesterov : pyval) :
  mp !! "data_shape" = Some (PTuple [n_inputs]) →
  mp !! "nb_hidden" = Some nb_hidden →
  mp !! "init" = Some init →
  mp !! "activation" = Some activation →
  mp !! "dropout" = Some dropout →
  mp !! "learning_rate" = Some learning_rate →
  mp !! "decay" = Some decay →
  mp !! "momentum" = Some momentum →
  mp !! "nesterov" = Some nesterov →
  (∀ task kind, tt !! task = Some kind →
     kind = "classification" ∨ kind = "regression") →
  (∀ g, accepts_input g "input" [n_inputs] = true) →
  (∀ g l name input,
     l ∈ [DenseLayer nb_hidden init activation; DropoutLayer dropout;
          DenseLayer (PInt 2) init (PStr "softmax");
          DenseLayer (PInt 1) init (PStr "linear")] →
     accepts_node g l name input = true) →
  (∀ g loss,
     accepts_compile g (mk_SGD learning_rate decay momentum nesterov) loss = true) →
  ∃ model,
    MultiTaskDNN_init tt mp true = Some (mk_Model tt mp (Some model)) ∧
    g_inputs model = [("input", [n_inputs])] ∧
    g_nodes model
    = [("dense", DenseLayer nb_hidden init activation, "input");
       ("dropout", DropoutLayer dropout, "dense")]
      ++ omap (expected_head_node tt init) (enumerate (sorted_tasks tt)) ∧
    g_outputs model
    = ((fun i => (task_name i, head_name i)) <$> seq 0 (length (sorted_tasks tt))) ∧
    (∀ i task, sorted_tasks tt !! i = Some task →
       (tt !! task = Some "classification" →
        (head_name i, DenseLayer (PInt 2) init (PStr "softmax"), "dropout")
          ∈ g_nodes model ∧
        g_loss model !! task_name i = Some "binary_crossentropy") ∧
       (tt !! task = Some "regression" →
        (head_name i, DenseLayer (PInt 1) init (PStr "linear"), "dropout")
          ∈ g_nodes model ∧
        g_loss model !! task_name i = Some "mean_squared_error")) ∧
    (∀ key, (∀ i, i < length (sorted_tasks tt) → key ≠ task_name i) →
       g_loss model !! key = None) ∧
    g_optimizer model = Some (mk_SGD learning_rate decay momentum nesterov).
Proof.
  intros Hshape Hhidden Hinit Hact Hdrop Hlr Hdecay Hmom Hnest
    Hkinds Hinput Hnode Hcompile.
  assert (Hsome : ∃ self, MultiTaskDNN_init tt mp true = Some self).
  { unfold MultiTaskDNN_init. rewrite Hshape, Hhidden, Hinit, Hact, Hdrop.
    cbn [mbind option_bind unpack1].
    rewrite add_input_accepted by (done || apply not_elem_of_nil).
    cbn [mbind option_bind].
    rewrite add_node_accepted; first last.
    { apply Hnode. unfold Dense. simpl. apply list_elem_of_here. }
    { cbn. apply list_elem_of_here. }
    { cbn. rewrite not_elem_of_cons. split; [done|apply not_elem_of_nil]. }
    cbn [mbind option_bind].
    rewrite add_node_accepted; first last.
    { apply Hnode. unfold Dropout. apply list_elem_of_further, list_elem_of_here. }
    { cbn. apply list_elem_of_further, list_elem_of_here. }
    { cbn. rewrite !not_elem_of_cons. do 2 (split; [done|]). apply not_elem_of_nil. }
    cbn [mbind option_bind].
    match goal with
    | |- context [for_each _ (add_head _ _ _) ?g3] =>
        destruct (add_heads_succeed tt mp n_inputs nb_hidden init activation
                    dropout Hinit g3) as [g4 Hg4]
    end.
    { unfold heads_built. cbn. repeat split; try done. intros i task Hi. lia. }
    { done. }
    { intros g l name [-> | ->]; apply Hnode;
        repeat (first [apply list_elem_of_here | apply list_elem_of_further]). }
    rewrite Hg4. cbn [mbind option_bind].
    destruct (loss_dict_entries tt) as (loss_dict & Hdict & _).
    rewrite Hdict. cbn [mbind option_bind].
    rewrite Hlr, Hdecay, Hmom, Hnest. cbn [mbind option_bind].
    unfold compile. rewrite Hcompile. cbn [mbind option_bind]. eauto. }
  destruct Hsome as [self Hself].
  destruct (MultiTaskDNN_init_inv tt mp self Hself)
    as (n_inputs' & nb_hidden' & init' & activation' & dropout' & model
        & (Hshape' & Hhidden' & Hinit' & Hact' & Hdrop'
           & lr' & decay' & mom' & nest' & Hlr' & Hdecay' & Hmom' & Hnest' & Hopt)
        & -> & Hnodes & Hin & Houts & Hloss & Hother & _).
  rewrite Hshape in Hshape'. simpl in Hshape'.
  assert (n_inputs' = n_inputs) as -> by congruence.
  assert (nb_hidden' = nb_hidden) as -> by congruence.
  assert (init' = init) as -> by congruence.
  assert (activation' = activation) as -> by congruence.
  assert (dropout' = dropout) as -> by congruence.
  assert (lr' = learning_rate) as -> by congruence.
  assert (decay' = decay) as -> by congruence.
  assert (mom' = momentum) as -> by congruence.
  assert (nest' = nesterov) as -> by congruence.
  exists model. do 4 (split; [done|]). split; [|by split].
  assert (Hmember : ∀ i task kind l,
    sorted_tasks tt !! i = Some task → tt !! task = Some kind →
    expected_head init kind = Some l →
    (head_name i, l, "dropout") ∈ g_nodes model).
  { intros i task kind l Hi Hkind Hl. rewrite Hnodes. apply elem_of_app. right.
    apply list_elem_of_omap. exists (i, task).
    split; [by eapply list_elem_of_lookup_2, enumerate_lookup_2|].
    unfold expected_head_node; simpl. rewrite Hkind; simpl. by rewrite Hl. }
  intros i task Hi. split; intros Hkind; (split; [by eapply Hmember|]);
    by rewrite (Hloss i task), Hkind.
Qed.

Lemma MultiTaskDNN_construction_witness :
  ∃ model,
    @MultiTaskDNN_init demo_engine demo_tasks demo_params true
    = Some (mk_Model demo_tasks demo_params (Some model)) ∧
    g_nodes model
    = [("dense", DenseLayer (PInt 16) (PStr "glorot_uniform") (PStr "relu"), "input");
       ("dropout", DropoutLayer (PFloat 0.5), "dense");
       ("dense_head0",
        DenseLayer (PInt 2) (PStr "glorot_uniform") (PStr "softmax"), "dropout");
       ("dense_head1",
        DenseLayer (PInt 1) (PStr "glorot_uniform") (PStr "linear"), "dropout")] ∧
    g_outputs model = [("task0", "dense_head0"); ("task1", "dense_head1")] ∧
    g_optimizer model
    = Some (mk_SGD (PFloat 0.125) (PFloat 0) (PFloat 0.875) (PBool true)).
Proof.
  destruct (@MultiTaskDNN_construction demo_engine demo_tasks demo_params
              (PInt 3) (PInt 16) (PStr "glorot_uniform") (PStr "relu")
              (PFloat 0.5) (PFloat 0.125) (PFloat 0) (PFloat 0.875) (PBool true)
              eq_refl eq_refl eq_refl eq_refl eq_refl eq_refl eq_refl eq_refl eq_refl)
    as (model & Hmodel & _ & Hnodes & Houts & _ & _ & Hopt).
  - intros task kind Hkind. unfold demo_tasks in Hkind.
    apply lookup_insert_Some in Hkind as [[_ <-]|[_ Hkind]]; [by right|].
    apply lookup_insert_Some in Hkind as [[_ <-]|[_ Hkind]]; [by left|].
    by rewrite lookup_empty in Hkind.
  - reflexivity.
  - reflexivity.
  - reflexivity.
  - exists model. split; [exact Hmodel|]. split; [exact Hnodes|].
    split; [exact Houts|exact Hopt].
Defined.

Example MultiTaskDNN_init_skipped :
  @MultiTaskDNN_init demo_engine demo_tasks demo_params false
  = Some (mk_Model demo_tasks demo_params None).
Proof. reflexivity. Qed.

(** ** Arg-max, squeeze and column assignment *)

Lemma list_bind_singleton {A B} (g : A → B) (l : list A) :
  l ≫= (fun x => [g x]) = g <$> l.
Proof. induction l as [|x l IH]; [done|]. rewrite bind_cons, IH. done. Qed.

Lemma mapM_fmap_total {A B C} (f : B → option C) (g : A → B) (h : A → C)
    (l : list A) :
  (∀ x, x ∈ l → f (g x) = Some (h x)) → mapM f (g <$> l) = Some (h <$> l).
Proof.
  induction l as [|x l IH]; intros Hf; [done|].
  cbn. rewrite Hf by left. cbn. rewrite IH; [done|].
  intros y Hy. apply Hf. by right.
Qed.

Lemma get_row_lane (a : ndarray) (n c r : nat) :
  shape a = [n; c] → wf a → r < n →
  (fun j => default 0%float (data a !! ((r * c + j) * 1 + 0))) <$> seq 0 c
  = get_row a r.
Proof.
  intros Hs Hwf Hr. unfold wf in Hwf. rewrite Hs in Hwf. simpl in Hwf.
  unfold get_row, item. rewrite Hs. simpl. rewrite Nat.mul_1_r.
  apply list_eq; intros j. rewrite list_lookup_fmap.
  destruct (decide (j < c)) as [Hj|Hj].
  - rewrite lookup_seq_lt, lookup_take_lt, lookup_drop by done. simpl.
    rewrite Nat.mul_1_r, Nat.add_0_r.
    assert (Hlt : r * c + j < length (data a)).
    { rewrite Hwf, Nat.mul_1_r. by apply matrix_index_lt. }
    apply lookup_lt_is_Some in Hlt as [x Hx]. by rewrite Hx.
  - rewrite lookup_seq_ge, lookup_take_ge by lia. done.
Qed.

Lemma get_row_length (a : ndarray) (n c r : nat) :
  shape a = [n; c] → wf a → r < n → length (get_row a r) = c.
Proof.
  intros Hs Hwf Hr. rewrite <- (get_row_lane a n c r) by done.
  by rewrite length_fmap, length_seq.
Qed.

Lemma argmax_axis1_matrix (out : ndarray) (n c : nat) :
  shape out = [n; c] → wf out → 0 < c →
  ∃ idx, np_argmax_axis1 out = Some (vector (float_of_nat <$> idx)) ∧
    length idx = n ∧
    ∀ r, r < n → argmax_list (get_row out r) = idx !! r.
Proof.
  intros Hs Hwf Hc.
  set (h := fun r => default 0 (argmax_list (get_row out r))).
  assert (Hrow : ∀ r, r < n → argmax_list (get_row out r) = Some (h r)).
  { intros r Hr. unfold h.
    pose proof (get_row_length out n c r Hs Hwf Hr) as Hlen.
    destruct (get_row out r); [simpl in Hlen; lia|done]. }
  exists (h <$> seq 0 n). split; [|split].
  - unfold np_argmax_axis1. rewrite Hs. cbn [size_of foldr].
    match goal with
    | |- context [mapM _ ?l] =>
        replace l with ((fun i => (i, 0)) <$> seq 0 n)
          by (rewrite <- list_bind_singleton; by apply list_bind_ext)
    end.
    rewrite (mapM_fmap_total _ _ h).
    + simpl. rewrite decide_False by lia. unfold vector.
      by rewrite !length_fmap, length_seq.
    + intros r Hr. apply elem_of_seq in Hr. simpl.
      rewrite (get_row_lane out n c r) by (done || lia). apply Hrow. lia.
  - by rewrite length_fmap, length_seq.
  - intros r Hr. rewrite list_lookup_fmap, lookup_seq_lt by done. by apply Hrow.
Qed.

Lemma squeeze_vector (l : list float) :
  np_squeeze (vector l)
  = mk_ndarray (if decide (length l = 1) then [] else [length l]) l.
Proof.
  unfold np_squeeze, vector; simpl. f_equal.
  case_decide as Hn.
  - rewrite Hn. done.
  - by rewrite filter_cons_True, filter_nil.
Qed.

Lemma squeeze_single_column (out : ndarray) (n : nat) :
  shape out = [n; 1] → wf out → np_squeeze out = np_squeeze (vector (data out)).
Proof.
  intros Hs Hwf. unfold wf in Hwf. rewrite Hs in Hwf. simpl in Hwf.
  rewrite squeeze_vector. unfold np_squeeze. rewrite Hs. f_equal.
  rewrite filter_cons, (filter_cons_False _ 1), filter_nil by (intros H; by apply H).
  replace (length (data out)) with n by lia.
  by repeat case_decide.
Qed.

Lemma matrix_index_mod (t r j : nat) : j < t → (r * t + j) mod t = j.
Proof. intros Hj. rewrite Nat.add_comm, Nat.Div0.mod_add. by apply Nat.mod_small. Qed.

Lemma matrix_index_div (t r j : nat) : j < t → (r * t + j) / t = r.
Proof.
  intros Hj. rewrite Nat.add_comm, Nat.div_add by lia.
  rewrite Nat.div_small by done. done.
Qed.

Lemma assign_column_squeezed (a : ndarray) (n t ind : nat) (l : list float) :
  shape a = [n; t] → wf a → ind < t → length l = n →
  ∃ a', assign_column a ind (np_squeeze (vector l)) = Some a' ∧
    shape a' = [n; t] ∧ wf a' ∧
    ∀ r j, r < n → j < t →
      data a' !! (r * t + j)
      = if decide (j = ind) then l !! r else data a !! (r * t + j).
Proof.
  intros Hs Hwf Hind Hl. unfold wf in Hwf. rewrite Hs in Hwf. simpl in Hwf.
  assert (Hlook : ∀ r j, r < n → j < t → is_Some (data a !! (r * t + j))).
  { intros r j Hr Hj. apply lookup_lt_is_Some. rewrite Hwf, Nat.mul_1_r.
    by apply matrix_index_lt. }
  rewrite squeeze_vector. unfold assign_column. rewrite Hs.
  rewrite decide_True by done. cbn [shape data].
  destruct (decide (length l = 1)) as [H1|H1].
  - destruct l as [|x [|? ?]]; try done. simpl in Hl. subst n. cbn.
    eexists; split; [done|]. split; [done|]. split.
    { unfold wf; simpl. by rewrite length_imap. }
    intros r j Hr Hj. assert (r = 0) as -> by lia. simpl.
    rewrite list_lookup_imap. destruct (Hlook 0 j) as [old Hold]; [lia|done|].
    simpl in Hold. rewrite Hold. simpl.
    rewrite Nat.mod_small by done. by repeat case_decide.
  - assert (Hstrip : strip_ones [length l] = [length l]).
    { simpl. destruct (length l) as [|[|?]]; done. }
    rewrite Hstrip, decide_True by done.
    eexists; split; [done|]. split; [done|]. split.
    { unfold wf; simpl. by rewrite length_imap. }
    intros r j Hr Hj. simpl. rewrite list_lookup_imap.
    destruct (Hlook r j Hr Hj) as [old Hold]. rewrite Hold. simpl.
    rewrite matrix_index_mod, matrix_index_div by done.
    case_decide; [|done].
    assert (is_Some (l !! r)) as [x Hx] by (apply lookup_lt_is_Some; lia).
    by rewrite Hx.
Qed.

(** ** Assembly of the predictions *)

Section Prediction.
Context {E : Engine}.
Variables (self : Model) (X : ndarray) (model : Graph weights).
Variables (y_pred_dict : gmap string ndarray) (n : nat).

Let tasks := sorted_tasks (task_types self).

(** What the engine is expected to return: for every task an array
    under the task's name, of shape [n, 2] for a classification head and
    [n, 1] for any other. *)
Hypothesis Hmodel : raw_model self = Some model.
Hypothesis Hengine :
  engine_predict_on_batch model {["input" := X]} = Some y_pred_dict.
Hypothesis Hsamples : shape0 X = Some n.
Hypothesis Houtputs : ∀ i task, tasks !! i = Some task →
  ∃ out, y_pred_dict !! task_name i = Some out ∧ wf out ∧
    shape out
    = [n; if decide (task_types self !! task = Some "classification")
          then 2 else 1].

Lemma predict_body_step (k : nat) (task : string) (m : ndarray) :
  tasks !! k = Some task → shape m = [n; length tasks] → wf m →
  ∃ out col m', y_pred_dict !! task_name k = Some out ∧ length col = n ∧
    predict_body (task_types self) y_pred_dict (k, task) m = Some m' ∧
    shape m' = [n; length tasks] ∧ wf m' ∧
    (∀ r j, r < n → j < length tasks →
       data m' !! (r * length tasks + j)
       = if decide (j = k) then col !! r else data m !! (r * length tasks + j)) ∧
    (∀ r, r < n →
       (task_types self !! task = Some "classification" →
        ∃ c, argmax_list (get_row out r) = Some c ∧ col !! r = Some (float_of_nat c)) ∧
       (task_types self !! task ≠ Some "classification" →
        is_Some (data out !! r) ∧ col !! r = data out !! r)).
Proof.
  intros Hk Hs Hwf.
  destruct (Houtputs k task Hk) as (out & Hout & Hwfo & Hso).
  destruct (sorted_tasks_lookup _ _ _ Hk) as [kind Hkind].
  assert (Hlt : k < length tasks) by (by eapply lookup_lt_Some).
  exists out. unfold predict_body. rewrite Hkind, Hout. cbn [mbind option_bind].
  rewrite Hkind in Hso.
  destruct (decide (kind = "classification")) as [->|Hne].
  - rewrite decide_True in Hso by done.
    destruct (argmax_axis1_matrix out n 2 Hso Hwfo) as (idx & Hidx & Hlen & Hrows);
      [lia|].
    exists (float_of_nat <$> idx). rewrite Hidx. cbn [fmap option_fmap option_map].
    destruct (assign_column_squeezed m n (length tasks) k (float_of_nat <$> idx))
      as (m' & Hm' & Hs' & Hwf' & Hdata); [done..|by rewrite length_fmap|].
    exists m'. split; [done|]. split; [by rewrite length_fmap|].
    do 4 (split; [done|]). intros r Hr. split; [|done].
    intros _. rewrite list_lookup_fmap, <- (Hrows r Hr).
    assert (is_Some (idx !! r)) as [c Hc] by (apply lookup_lt_is_Some; lia).
    exists c. rewrite (Hrows r Hr), Hc. done.
  - rewrite decide_False in Hso by congruence.
    rewrite (squeeze_single_column out n Hso Hwfo).
    assert (Hlen : length (data out) = n).
    { unfold wf in Hwfo. rewrite Hso in Hwfo. simpl in Hwfo. lia. }
    exists (data out).
    destruct (assign_column_squeezed m n (length tasks) k (data out))
      as (m' & Hm' & Hs' & Hwf' & Hdata); [done..|].
    exists m'. do 6 (split; [done|]). intros r Hr. split; [congruence|].
    intros _. split; [|done]. apply lookup_lt_is_Some. lia.
Qed.

Lemma predict_matrix_entries :
  ∃ m, predict_matrix self X = Some m ∧ shape m = [n; length tasks] ∧ wf m ∧
    ∀ i task r, tasks !! i = Some task → r < n →
      ∃ out, y_pred_dict !! task_name i = Some out ∧
        (task_types self !! task = Some "classification" →
         ∃ c, argmax_list (get_row out r) = Some c ∧
              data m !! (r * length tasks + i) = Some (float_of_nat c)) ∧
        (task_types self !! task ≠ Some "classification" →
         is_Some (data out !! r) ∧
         data m !! (r * length tasks + i) = data out !! r).
Proof.
  unfold predict_matrix. rewrite get_data_dict_inference, insert_empty.
  cbn [mbind option_bind].
  rewrite Hmodel. cbn [mbind option_bind]. rewrite Hengine. cbn [mbind option_bind].
  rewrite Hsamples. cbn [mbind option_bind]. fold tasks.
  set (P := fun (m : ndarray) (i : nat) (task : string) (r : nat) =>
    ∃ out, y_pred_dict !! task_name i = Some out ∧
      (task_types self !! task = Some "classification" →
       ∃ c, argmax_list (get_row out r) = Some c ∧
            data m !! (r * length tasks + i) = Some (float_of_nat c)) ∧
      (task_types self !! task ≠ Some "classification" →
       is_Some (data out !! r) ∧
       data m !! (r * length tasks + i) = data out !! r)).
  destruct (for_each_inv (enumerate tasks)
    (predict_body (task_types self) y_pred_dict)
    (fun k m => shape m = [n; length tasks] ∧ wf m ∧
       ∀ i task r, i < k → tasks !! i = Some task → r < n → P m i task r)
    (np_zeros [n; length tasks])) as (m & Hm & Hs & Hwf & Hentries).
  - split; [done|]. split; [|lia].
    unfold wf, np_zeros; simpl. by rewrite length_replicate.
  - intros k [i task] m Hk (Hs & Hwf & Hentries).
    apply enumerate_lookup in Hk as [Hi Hk]. simpl in Hi, Hk; subst i.
    destruct (predict_body_step k task m Hk Hs Hwf)
      as (out & col & m' & Hout & Hlen & Hm' & Hs' & Hwf' & Hdata & Hcol).
    exists m'. do 3 (split; [done|]).
    intros i task' r Hi Htask' Hr. unfold P.
    assert (Hit : i < length tasks) by (by eapply lookup_lt_Some).
    rewrite (Hdata r i Hr Hit). destruct (decide (i = k)) as [->|Hne].
    + assert (task' = task) as -> by congruence.
      exists out. split; [done|]. destruct (Hcol r Hr) as [Hc Hreg].
      split; [done|]. intros Hkind. destruct (Hreg Hkind) as [? ->]. done.
    + apply Hentries; [lia|done..].
  - exists m. do 3 (split; [done|]). intros i task r Hi Hr.
    apply Hentries; [|done..]. rewrite enumerate_length. by eapply lookup_lt_Some.
Qed.

End Prediction.

Lemma squeeze_matrix_shape (n t : nat) :
  filter (fun d => d ≠ 1) [n; t]
  = if decide (n = 1) then (if decide (t = 1) then [] else [t])
    else if decide (t = 1) then [n] else [n; t].
Proof.
  rewrite filter_cons, filter_cons, filter_nil.
  destruct (decide (n = 1)), (decide (t = 1)); subst; simpl;
    repeat case_decide; done.
Qed.

(** C5, amended: when the engine returns for every task an array of
    shape [n, 2] (classification) or [n, 1] (any other kind),
    [predict_on_batch(X)] fills an [n, t] matrix whose column [i] (task
    [i] in sorted order) is the row-wise arg-max of the engine's output
    for a classification task and the engine's squeezed output
    otherwise, rows in sample order; it returns that matrix with every
    axis of length one removed, which is shape [n] when [t = 1] and
    [n ≠ 1]. *)
Theorem predict_on_batch_assembly {E : Engine} (self : Model) (X : ndarray)
    (model : Graph weights) (y_pred_dict : gmap string ndarray) (n : nat) :
  raw_model self = Some model →
  engine_predict_on_batch model {["input" := X]} = Some y_pred_dict →
  shape0 X = Some n →
  (∀ i task, sorted_tasks (task_types self) !! i = Some task →
     ∃ out, y_pred_dict !! task_name i = Some out ∧ wf out ∧
       shape out
       = [n; if decide (task_types self !! task = Some "classification")
             then 2 else 1]) →
  ∃ m, predict_matrix self X = Some m ∧
    shape m = [n; length (sorted_tasks (task_types self))] ∧ wf m ∧
    (∀ i task r, sorted_tasks (task_types self) !! i = Some task → r < n →
       ∃ out, y_pred_dict !! task_name i = Some out ∧
         (task_types self !! task = Some "classification" →
          ∃ c, argmax_list (get_row out r) = Some c ∧
               data m !! (r * length (sorted_tasks (task_types self)) + i)
               = Some (float_of_nat c)) ∧
         (task_types self !! task ≠ Some "classification" →
          is_Some (data out !! r) ∧
          data m !! (r * length (sorted_tasks (task_types self)) + i)
          = data out !! r)) ∧
    predict_on_batch self X
    = Some (mk_ndarray
              (filter (fun d => d ≠ 1) [n; length (sorted_tasks (task_types self))])
              (data m)) ∧
    (length (sorted_tasks (task_types self)) = 1 → n ≠ 1 →
     shape <$> predict_on_batch self X = Some [n]).
Proof.
  intros Hmodel Hengine Hsamples Houtputs.
  destruct (predict_matrix_entries self X model y_pred_dict n
              Hmodel Hengine Hsamples Houtputs) as (m & Hm & Hs & Hwf & Hentries).
  assert (Hpred : predict_on_batch self X
    = Some (mk_ndarray
              (filter (fun d => d ≠ 1) [n; length (sorted_tasks (task_types self))])
              (data m))).
  { unfold predict_on_batch. rewrite Hm. simpl. unfold np_squeeze. by rewrite Hs. }
  exists m. do 5 (split; [done|]).
  intros Ht Hn. rewrite Hpred. simpl. rewrite squeeze_matrix_shape.
  by rewrite decide_False, decide_True.
Qed.

(** The outputs the demonstration engine returns for a batch. *)
Ltac demo_outputs :=
  intros i task Hi;
  repeat (destruct i as [|i]; [injection Hi as <-; eexists;
                               split; [vm_compute; reflexivity|];
                               split; vm_compute; reflexivity|]);
  vm_compute in Hi; discriminate Hi.

Lemma predict_on_batch_assembly_witness :
  ∃ m, predict_matrix demo_self demo_X = Some m ∧ shape m = [4; 2] ∧
    predict_on_batch demo_self demo_X
    = Some (mk_ndarray [4; 2] [1; 0.5; 1; 0.5; 1; 0.5; 1; 0.5]%float).
Proof.
  destruct (predict_on_batch_assembly demo_self demo_X
              (mk_Graph [] [] [] None ∅ tt)
              (default ∅ (demo_predict {["input" := demo_X]})) 4)
    as (m & Hm & Hs & _ & _ & _ & _).
  - reflexivity.
  - vm_compute. reflexivity.
  - reflexivity.
  - demo_outputs.
  - exists m. split; [exact Hm|]. split; [exact Hs|]. vm_compute. reflexivity.
Defined.

(** C5 as stated fails for a batch of one sample: with one task the
    result is zero-dimensional, not of shape [1]. *)
Lemma predict_on_batch_one_task_one_sample :
  length (sorted_tasks (task_types demo_single)) = 1 ∧
  shape0 demo_X1 = Some 1 ∧
  predict_on_batch demo_single demo_X1 = Some (mk_ndarray [] [1%float]) ∧
  shape <$> predict_on_batch demo_single demo_X1 ≠ Some [1].
Proof. vm_compute. repeat split; discriminate. Qed.

(** C10: for a batch of a single sample the final squeeze also removes
    the sample axis: the result has shape [t] when there are [t > 1]
    tasks, and is zero-dimensional when there is one task. *)
Theorem predict_on_batch_single_sample {E : Engine} (self : Model)
    (X : ndarray) (model : Graph weights) (y_pred_dict : gmap string ndarray) :
  raw_model self = Some model →
  engine_predict_on_batch model {["input" := X]} = Some y_pred_dict →
  shape0 X = Some 1 →
  (∀ i task, sorted_tasks (task_types self) !! i = Some task →
     ∃ out, y_pred_dict !! task_name i = Some out ∧ wf out ∧
       shape out
       = [1; if decide (task_types self !! task = Some "classification")
             then 2 else 1]) →
  ∃ y_pred, predict_on_batch self X = Some y_pred ∧
    (1 < length (sorted_tasks (task_types self)) →
     shape y_pred = [length (sorted_tasks (task_types self))]) ∧
    (length (sorted_tasks (task_types self)) = 1 → shape y_pred = []).
Proof.
  intros Hmodel Hengine Hsamples Houtputs.
  destruct (predict_matrix_entries self X model y_pred_dict 1
              Hmodel Hengine Hsamples Houtputs) as (m & Hm & Hs & _).
  exists (np_squeeze m). split.
  { unfold predict_on_batch. by rewrite Hm. }
  unfold np_squeeze. rewrite Hs. simpl. rewrite squeeze_matrix_shape.
  rewrite decide_True by done. split; intros Ht.
  - by rewrite decide_False by lia.
  - by rewrite decide_True.
Qed.

Lemma predict_on_batch_single_sample_witness :
  ∃ y_pred, predict_on_batch demo_self demo_X1 = Some y_pred ∧ shape y_pred = [2].
Proof.
  destruct (predict_on_batch_single_sample demo_self demo_X1
              (mk_Graph [] [] [] None ∅ tt)
              (default ∅ (demo_predict {["input" := demo_X1]})))
    as (y_pred & Hy & Hmany & _).
  - reflexivity.
  - vm_compute. reflexivity.
  - reflexivity.
  - demo_outputs.
  - exists y_pred. split; [exact Hy|]. apply Hmany. vm_compute. lia.
Defined.

Example single_sample_predictions_ex :
  predict_on_batch demo_self demo_X1 = Some (mk_ndarray [2] [1; 0.5]%float)
  ∧ predict_on_batch demo_single demo_X1 = Some (mk_ndarray [] [1%float])
  ∧ predict_on_batch demo_single demo_X = Some (mk_ndarray [4] [1; 1; 1; 1]%float).
Proof. vm_compute. repeat split. Qed.

(** ** The order of the tasks across the methods *)

Lemma MultiTaskDNN_init_graph {E : Engine} (tt : gmap string string)
    (mp : gmap string pyval) (self : Model) :
  MultiTaskDNN_init tt mp true = Some self →
  ∃ init model,
    mp !! "init" = Some init ∧ self = mk_Model tt mp (Some model) ∧
    g_outputs model
    = ((fun i => (task_name i, head_name i)) <$> seq 0 (length (sorted_tasks tt))) ∧
    (∀ node, node ∈ omap (expected_head_node tt init) (enumerate (sorted_tasks tt)) →
       node ∈ g_nodes model) ∧
    (∀ i task, sorted_tasks tt !! i = Some task →
       g_loss model !! task_name i = tt !! task ≫= expected_loss).
Proof.
  intros Hself.
  destruct (MultiTaskDNN_init_inv tt mp self Hself)
    as (n_inputs & nb_hidden & init & activation & dropout & model
        & (_ & _ & Hinit & _) & -> & Hnodes & _ & Houts & Hloss & _).
  exists init, model. split; [done|]. split; [done|]. split; [done|].
  split; [|done]. intros node Hnode. rewrite Hnodes. apply elem_of_app. by right.
Qed.

(** C2: the tasks are enumerated in ascending order of their
    identifiers, and construction (heads [dense_head{i}], outputs
    [task{i}], losses), [get_data_dict] (keys [task{i}], column [i] of
    [y]), [get_sample_weight] (keys [task{i}], column [i] of [w]) and
    [predict_on_batch] (column [i] of the result) all use index [i] for
    the [i]-th task of that enumeration. *)
Theorem task_order_consistent {E : Engine} (tt : gmap string string)
    (mp : gmap string pyval) (self : Model) :
  MultiTaskDNN_init tt mp true = Some self →
  (∀ i j a b, i < j → sorted_tasks tt !! i = Some a →
     sorted_tasks tt !! j = Some b → String.ltb a b = true) ∧
  (∀ task, task ∈ sorted_tasks tt ↔ is_Some (tt !! task)) ∧
  task_types self = tt ∧
  (∃ init model,
     mp !! "init" = Some init ∧ raw_model self = Some model ∧
     g_outputs model
     = ((fun i => (task_name i, head_name i))
          <$> seq 0 (length (sorted_tasks tt))) ∧
     ∀ i task, sorted_tasks tt !! i = Some task →
       (∀ l, tt !! task ≫= expected_head init = Some l →
             (head_name i, l, "dropout") ∈ g_nodes model) ∧
       g_loss model !! task_name i = tt !! task ≫= expected_loss) ∧
  (∀ X y n, shape y = [n; length (sorted_tasks tt)] → wf y →
     ∃ dict, get_data_dict self X (Some y) = Some dict ∧
       ∀ i task, sorted_tasks tt !! i = Some task →
         ∃ col, get_column y i = Some col ∧
           (tt !! task = Some "classification" →
            dict !! task_name i = to_one_hot col) ∧
           (tt !! task = Some "regression" → dict !! task_name i = Some col)) ∧
  (∀ w n, shape w = [n; length (sorted_tasks tt)] → wf w →
     ∃ sample_weight, get_sample_weight self w = Some sample_weight ∧
       ∀ i, i < length (sorted_tasks tt) →
         is_Some (get_column w i) ∧
         sample_weight !! task_name i = get_column w i) ∧
  (∀ X model y_pred_dict n,
     raw_model self = Some model →
     engine_predict_on_batch model {["input" := X]} = Some y_pred_dict →
     shape0 X = Some n →
     (∀ i task, sorted_tasks tt !! i = Some task →
        ∃ out, y_pred_dict !! task_name i = Some out ∧ wf out ∧
          shape out
          = [n; if decide (tt !! task = Some "classification") then 2 else 1]) →
     ∃ m, predict_matrix self X = Some m ∧
       shape m = [n; length (sorted_tasks tt)] ∧
       ∀ i task r, sorted_tasks tt !! i = Some task → r < n →
         ∃ out, y_pred_dict !! task_name i = Some out ∧
           (tt !! task = Some "classification" →
            ∃ c, argmax_list (get_row out r) = Some c ∧
                 data m !! (r * length (sorted_tasks tt) + i)
                 = Some (float_of_nat c)) ∧
           (tt !! task ≠ Some "classification" →
            data m !! (r * length (sorted_tasks tt) + i) = data out !! r)).
Proof.
  intros Hself.
  destruct (MultiTaskDNN_init_graph tt mp self Hself)
    as (init & model & Hinit & -> & Houts & Hnodes & Hloss).
  split; [apply sorted_tasks_ascending|]. split; [apply sorted_tasks_elem|].
  split; [done|]. split; [|split; [|split]].
  - exists init, model. do 3 (split; [done|]). intros i task Hi.
    split; [|by apply Hloss]. intros l Hl. apply Hnodes.
    apply list_elem_of_omap. exists (i, task).
    split; [by eapply list_elem_of_lookup_2, enumerate_lookup_2|].
    unfold expected_head_node; simpl. by rewrite Hl.
  - intros X y n Hs Hwf.
    destruct (get_data_dict_labels (mk_Model tt mp (Some model)) X y n Hs Hwf)
      as (dict & Hdict & _ & Htasks & _).
    exists dict. split; [done|]. intros i task Hi.
    destruct (sorted_tasks_lookup _ _ _ Hi) as [kind Hkind].
    destruct (Htasks i task kind Hi Hkind) as (col & Hcol & _ & _ & Hentry).
    exists (vector col). split; [done|]. simpl in Hkind. rewrite Hkind.
    split; intros [= ->]; rewrite Hentry; by repeat case_decide.
  - intros w n Hs Hwf.
    destruct (get_sample_weight_columns (mk_Model tt mp (Some model)) w n Hs Hwf)
      as (sw & Hsw & Hcols & _).
    exists sw. split; [done|]. intros i Hi.
    destruct (Hcols i Hi) as (col & Hcol & _ & _ & Hlook).
    rewrite Hcol, Hlook. eauto.
  - intros X model' y_pred_dict n Hmodel Hengine Hsamples Houtputs.
    destruct (predict_matrix_entries (mk_Model tt mp (Some model)) X model'
                y_pred_dict n Hmodel Hengine Hsamples Houtputs)
      as (m & Hm & Hs & _ & Hentries).
    exists m. do 2 (split; [done|]). intros i task r Hi Hr.
    destruct (Hentries i task r Hi Hr) as (out & Hout & Hcls & Hreg).
    exists out. split; [done|]. split; [done|].
    intros Hkind. by destruct (Hreg Hkind).
Qed.

Lemma task_order_consistent_witness :
  sorted_tasks demo_tasks = ["a"; "b"] ∧
  ∃ self, @MultiTaskDNN_init demo_engine demo_tasks demo_params true = Some self ∧
    task_types self = demo_tasks ∧
    ∃ model, raw_model self = Some model ∧
      g_outputs model = [("task0", "dense_head0"); ("task1", "dense_head1")].
Proof.
  split; [vm_compute; reflexivity|].
  exists (default demo_self (@MultiTaskDNN_init demo_engine demo_tasks demo_params true)).
  assert (Hself : @MultiTaskDNN_init demo_engine demo_tasks demo_params true
                  = Some (default demo_self
                            (@MultiTaskDNN_init demo_engine demo_tasks demo_params true)))
    by (vm_compute; reflexivity).
  destruct (task_order_consistent demo_tasks demo_params _ Hself)
    as (_ & _ & Htt & (init & model & _ & Hmodel & Houts & _) & _).
  split; [exact Hself|]. split; [exact Htt|].
  exists model. split; [exact Hmodel|]. exact Houts.
Defined.

(** ** The persisted files *)

Lemma with_ext_json_h5 (filename : string) :
  with_ext filename "json" ≠ with_ext filename "h5".
Proof.
  unfold with_ext. intros H. apply (inj (String.app filename)) in H.
  discriminate H.
Qed.

(** C7: [save] takes the base file name from the directory's model file
    name without its extension and, after the base class's hook, writes
    the architecture to [<base>.json] and the weights to [<base>.h5],
    replacing what was there and touching no other file; [load] takes
    the same base name, rebuilds a raw model from [<base>.json], loads
    the weights of [<base>.h5] into it and installs it as the
    instance's raw model. *)
Theorem KerasModel_save_load_files {E : Engine} {V : Env} (self : Model)
    (dir : string) (fs fs1 fs2 : gmap string string)
    (model arch loaded : Graph weights) (json_string blob : string) :
  Model_save self dir fs = Some fs1 →
  get_raw_model self = Some model →
  fs2 !! with_ext (splitext (get_model_filename dir)).1 "json" = Some json_string →
  model_from_json json_string = Some arch →
  fs2 !! with_ext (splitext (get_model_filename dir)).1 "h5" = Some blob →
  load_weights arch blob = Some loaded →
  (∃ fs', KerasModel_save self dir fs = Some fs' ∧
     fs' !! with_ext (splitext (get_model_filename dir)).1 "json"
     = Some (to_json model) ∧
     fs' !! with_ext (splitext (get_model_filename dir)).1 "h5"
     = Some (dump_weights model) ∧
     ∀ path,
       path ≠ with_ext (splitext (get_model_filename dir)).1 "json" →
       path ≠ with_ext (splitext (get_model_filename dir)).1 "h5" →
       fs' !! path = fs1 !! path) ∧
  KerasModel_load self dir fs2
  = Some (mk_Model (task_types self) (model_params self) (Some loaded)).
Proof.
  intros Hhook Hmodel Hjson Harch Hh5 Hloaded. split.
  - eexists. unfold KerasModel_save. rewrite Hhook; simpl. rewrite Hmodel; simpl.
    split; [reflexivity|]. split; [|split].
    + rewrite lookup_insert_ne by (intros H; symmetry in H;
                                   by apply with_ext_json_h5 in H).
      apply lookup_insert_eq.
    + apply lookup_insert_eq.
    + intros path Hj Hh. by rewrite !lookup_insert_ne.
  - unfold KerasModel_load. rewrite Hjson; simpl. rewrite Harch; simpl.
    rewrite Hh5; simpl. by rewrite Hloaded.
Qed.

Lemma KerasModel_save_load_files_witness :
  (∃ fs', @KerasModel_save demo_engine demo_env demo_self "out" ∅ = Some fs' ∧
     fs' !! "out/model.pkl.json" = Some "{}" ∧
     fs' !! "out/model.pkl.h5" = Some EmptyString) ∧
  ∃ loaded,
    @KerasModel_load demo_engine demo_env demo_self "out"
      (default ∅ (@KerasModel_save demo_engine demo_env demo_self "out" ∅))
    = Some loaded.
Proof.
  destruct (@KerasModel_save_load_files demo_engine demo_env demo_self "out"
              ∅ ∅ (default ∅ (@KerasModel_save demo_engine demo_env demo_self "out" ∅))
              (mk_Graph [] [] [] None ∅ tt) (mk_Graph [] [] [] None ∅ tt)
              (mk_Graph [] [] [] None ∅ tt) "{}" EmptyString)
    as [(fs' & Hsave & Hjson & Hh5 & _) Hload];
    [vm_compute; reflexivity..|].
  split.
  - exists fs'. split; [exact Hsave|]. split; [exact Hjson|exact Hh5].
  - eexists. exact Hload.
Defined.



(** The predictions of that engine do depend on the weights. *)
Example blob_predictions_differ :
  predict_on_batch
    (@mk_Model blob_engine demo_tasks ∅
       (Some (mk_Graph [] [] [] None ∅ "trained"))) demo_X1
  = Some (mk_ndarray [2] [1; 7]%float)
  ∧ predict_on_batch
      (@mk_Model blob_engine demo_tasks ∅
         (Some (mk_Graph [] [] [] None ∅ EmptyString))) demo_X1
    = Some (mk_ndarray [2] [1; 0]%float).
Proof. vm_compute. split; reflexivity. Qed.

(** ** SingleTaskDNN *)

(** C9: every method call on an instance of [SingleTaskDNN], and its
    instantiation, gives what the same call gives for [MultiTaskDNN] on
    the same arguments; the body of [SingleTaskDNN] defines [__init__]
    only, and that passes its arguments on. *)
Theorem SingleTaskDNN_delegates {E : Engine} {V : Env} :
  (∀ x : call, invoke SingleTaskDNN x = invoke MultiTaskDNN x) ∧
  (∀ x : call, is_Some (SingleTaskDNN_body x) →
     ∃ task_types model_params initialize_raw_model,
       x = call_init task_types model_params initialize_raw_model) ∧
  class_body <$> mro SingleTaskDNN
  = SingleTaskDNN_body :: (class_body <$> mro MultiTaskDNN).
Proof.
  split; [|split].
  - intros []; reflexivity.
  - intros [] [r Hr]; try discriminate Hr. eauto.
  - reflexivity.
Qed.

Example invoke_ex :
  @invoke demo_engine demo_env SingleTaskDNN (call_predict_on_batch demo_self demo_X1)
  = out_array (Some (mk_ndarray [2] [1; 0.5]%float))
  ∧ @invoke demo_engine demo_env SingleTaskDNN
      (call_init demo_tasks demo_params false)
    = out_instance (Some (mk_Model demo_tasks demo_params None))
  ∧ @invoke demo_engine demo_env KerasModel
      (call_predict_on_batch demo_self demo_X1)
    = defined_by_Model.
Proof. vm_compute. repeat split. Qed.

(** * Further properties of the module *)

(** ** Loops *)

Lemma for_each_preserves {A St} (P : St → Prop) (l : list A)
    (body : A → St → option St) (s s' : St) :
  for_each l body s = Some s' → P s →
  (∀ x s1 s2, x ∈ l → body x s1 = Some s2 → P s1 → P s2) → P s'.
Proof.
  revert s. induction l as [|x l IH]; intros s Hrun Hs Hbody; simpl in Hrun.
  - by injection Hrun as <-.
  - destruct (body x s) as [s1|] eqn:Hx; [|done]. simpl in Hrun.
    apply (IH s1); [done|by eapply Hbody; [left|..]|].
    intros y s2 s3 Hy. apply Hbody. by right.
Qed.

Lemma for_each_fails {A St} (l : list A) (body : A → St → option St)
    (s : St) (x : A) :
  x ∈ l → (∀ s, body x s = None) → for_each l body s = None.
Proof.
  intros Hx Hnone. revert s. induction l as [|y l IH]; intros s.
  - by apply elem_of_nil in Hx.
  - simpl. apply elem_of_cons in Hx as [<-|Hx].
    + by rewrite Hnone.
    + destruct (body y s); [by apply IH|done].
Qed.

Lemma for_each_fmap {A B St} (g : A → B) (l : list A)
    (body : B → St → option St) (s : St) :
  for_each (g <$> l) body s = for_each l (fun x => body (g x)) s.
Proof.
  revert s. induction l as [|x l IH]; intros s; [done|].
  simpl. destruct (body (g x) s); [apply IH|done].
Qed.

Lemma for_each_ext {A St} (l : list A) (body1 body2 : A → St → option St)
    (s : St) :
  (∀ x s, x ∈ l → body1 x s = body2 x s) →
  for_each l body1 s = for_each l body2 s.
Proof.
  revert s. induction l as [|x l IH]; intros s Hext; [done|].
  simpl. rewrite Hext by left.
  destruct (body2 x s); [|done]. apply IH. intros y s' Hy. apply Hext. by right.
Qed.

Lemma enumerate_fmap {A B} (g : A → B) (l : list A) :
  enumerate (g <$> l) = (fun item => (item.1, g item.2)) <$> enumerate l.
Proof.
  unfold enumerate. rewrite length_fmap. generalize 0.
  induction l as [|x l IH]; intros k; [done|]. simpl. by rewrite IH.
Qed.

(** ** to_one_hot on arrays that are not vectors *)

Lemma to_one_hot_body_single (index : nat) (s : list nat) (v : float)
    (y_hot : ndarray) :
  to_one_hot_body (index, mk_ndarray s [v]) y_hot
  = to_one_hot_body (index, scalar v) y_hot.
Proof. done. Qed.

Lemma items_of_column (l : list float) :
  item (mk_ndarray [length l; 1] l) <$> seq 0 (length l)
  = (fun v => mk_ndarray [1] [v]) <$> l.
Proof.
  apply list_eq; intros i. rewrite !list_lookup_fmap.
  destruct (l !! i) as [x|] eqn:Hi.
  - rewrite lookup_seq_lt by (eapply lookup_lt_Some; eauto). simpl.
    unfold item; simpl. rewrite Nat.mul_1_r.
    by rewrite (drop_S _ _ _ Hi).
  - rewrite lookup_seq_ge; [done|]. by apply lookup_ge_None.
Qed.

(** X1: on a label array of shape [n, 1], the shape the docstring names,
    [to_one_hot] returns what it returns on the vector of the same
    entries: the [n, 2] array of the rows of the labels. *)
Theorem to_one_hot_column (l : list float) :
  to_one_hot (mk_ndarray [length l; 1] l) = to_one_hot (vector l)
  ∧ to_one_hot (mk_ndarray [length l; 1] l)
    = Some (mk_ndarray [length l; 2] (flat_map one_hot_row l)).
Proof.
  assert (H : to_one_hot (mk_ndarray [length l; 1] l) = to_one_hot (vector l)).
  { unfold to_one_hot, shape0, iter. cbn [vector shape head mbind option_bind].
    rewrite items_of_column, items_of_vector, !enumerate_fmap, !for_each_fmap.
    apply for_each_ext. intros [i v] y_hot _. apply to_one_hot_body_single. }
  split; [done|]. rewrite H. apply to_one_hot_vector.
Qed.

Lemma truth_several (bs : list bool) : 1 < length bs → truth bs = None.
Proof. destruct bs as [|? [|? ?]]; simpl; [lia..|done]. Qed.

(** X2: on an array with at least one item along the first axis, each
    item holding two entries or more, [to_one_hot] raises: the test
    [val == 0] has no single truth value. *)
Theorem to_one_hot_wide_raises (y : ndarray) (n : nat) (rest : list nat) :
  shape y = n :: rest → wf y → 0 < n → 1 < size_of rest →
  to_one_hot y = None.
Proof.
  intros Hs Hwf Hn Hrest. unfold wf in Hwf. rewrite Hs in Hwf. simpl in Hwf.
  unfold to_one_hot, shape0, iter. rewrite Hs. cbn [head mbind option_bind].
  destruct n as [|n]; [lia|].
  apply (for_each_fails _ _ _ (0, item y 0)).
  - unfold enumerate. simpl. apply list_elem_of_here.
  - intros y_hot. unfold to_one_hot_body.
    rewrite (truth_several (eq_scalar (item y 0) 0%float)); [done|].
    unfold eq_scalar, item. rewrite Hs. simpl.
    rewrite length_fmap, length_take, drop_0. nia.
Qed.

Lemma to_one_hot_wide_raises_witness :
  to_one_hot (mk_ndarray [2; 2] [0; 1; 1; 0]%float) = None.
Proof.
  apply (to_one_hot_wide_raises (mk_ndarray [2; 2] [0; 1; 1; 0]%float) 2 [2]);
    [reflexivity|reflexivity|lia|simpl; lia].
Defined.

(** ** One-hot labels and the arg-max *)

Lemma argmax_one_hot_row (v : float) :
  PrimFloat.eqb v 0 = true ∨ PrimFloat.eqb v 1 = true →
  float_of_nat <$> argmax_list (one_hot_row v)
  = Some (if PrimFloat.eqb v 0 then 0%float else 1%float).
Proof.
  unfold one_hot_row. intros [H0|H1].
  - rewrite H0. reflexivity.
  - destruct (PrimFloat.eqb v 0); [reflexivity|]. rewrite H1. reflexivity.
Qed.

(** X3: the row-wise arg-max that [predict_on_batch] applies to a
    classification output undoes [to_one_hot]: on the one-hot encoding
    of a vector of labels that are all 0 or 1 it gives back the vector
    of the classes. *)
Theorem argmax_of_one_hot (l : list float) :
  (∀ v, v ∈ l → PrimFloat.eqb v 0 = true ∨ PrimFloat.eqb v 1 = true) →
  to_one_hot (vector l) ≫= np_argmax_axis1
  = Some (vector ((fun v => if PrimFloat.eqb v 0 then 0%float else 1%float) <$> l)).
Proof.
  intros Hl. rewrite to_one_hot_vector. cbn [mbind option_bind].
  set (hot := mk_ndarray [length l; 2] (flat_map one_hot_row l)).
  destruct (argmax_axis1_matrix hot (length l) 2) as (idx & -> & Hlen & Hrows).
  { done. }
  { unfold wf, hot; simpl.
    rewrite (flat_map_rows_length _ 2) by apply one_hot_row_length. lia. }
  { lia. }
  f_equal.
  assert (Heq : float_of_nat <$> idx
    = (fun v => if PrimFloat.eqb v 0 then 0%float else 1%float) <$> l);
    [|by rewrite Heq].
  apply list_eq; intros i. rewrite !list_lookup_fmap.
  destruct (l !! i) as [v|] eqn:Hv.
  - assert (Hi : i < length l) by (by eapply lookup_lt_Some).
    rewrite <- (Hrows i Hi).
    assert (Hrow : get_row hot i = one_hot_row v).
    { unfold get_row, item, hot; simpl.
      by apply (flat_map_rows_lookup one_hot_row 2); [apply one_hot_row_length|]. }
    rewrite Hrow. simpl. apply argmax_one_hot_row, Hl.
    by eapply list_elem_of_lookup_2.
  - apply lookup_ge_None in Hv. rewrite lookup_ge_None_2 by lia. done.
Qed.

Lemma argmax_of_one_hot_witness :
  to_one_hot (vector [0; 1; 1; 0]%float) ≫= np_argmax_axis1
  = Some (vector [0; 1; 1; 0]%float).
Proof.
  apply (argmax_of_one_hot [0; 1; 1; 0]%float).
  intros v Hv. repeat (apply elem_of_cons in Hv as [->|Hv]; [vm_compute; auto|]).
  by apply elem_of_nil in Hv.
Defined.

(** ** The task order depends on the identifiers alone *)

(** X4: two task specifications with the same identifiers are
    enumerated in the same order, whatever kinds they give the tasks,
    and the enumeration has one entry for each task. *)
Theorem sorted_tasks_by_keys (tt1 tt2 : gmap string string) :
  dom tt1 = dom tt2 →
  sorted_tasks tt1 = sorted_tasks tt2 ∧ length (sorted_tasks tt1) = size tt1.
Proof.
  intros Hdom. split.
  - apply (StronglySorted_unique str_le).
    + apply StronglySorted_merge_sort; apply _.
    + apply StronglySorted_merge_sort; apply _.
    + apply NoDup_Permutation; [apply sorted_tasks_NoDup..|].
      intros task. by rewrite !sorted_tasks_elem, <- !elem_of_dom, Hdom.
  - rewrite sorted_tasks_perm. unfold keys.
    by rewrite length_fmap, length_map_to_list.
Qed.

Lemma sorted_tasks_by_keys_witness :
  sorted_tasks demo_tasks
  = sorted_tasks (<["a" := "regression"]> (<["b" := "classification"]> ∅))
  ∧ length (sorted_tasks demo_tasks) = size demo_tasks.
Proof.
  apply (sorted_tasks_by_keys demo_tasks
           (<["a" := "regression"]> (<["b" := "classification"]> ∅))).
  vm_compute. reflexivity.
Defined.

(** ** What a successful construction implies *)

(** X5: with [initialize_raw_model] true the constructor needs every
    one of the nine parameters: when one of them is missing the lookup
    raises and no instance is built. *)
Theorem MultiTaskDNN_init_missing_parameter {E : Engine}
    (tt : gmap string string) (mp : gmap string pyval) (key : string) :
  key ∈ ["data_shape"; "nb_hidden"; "init"; "activation"; "dropout";
         "learning_rate"; "decay"; "momentum"; "nesterov"] →
  mp !! key = None →
  MultiTaskDNN_init tt mp true = None.
Proof.
  intros Hkey Hmissing.
  destruct (MultiTaskDNN_init tt mp true) as [self|] eqn:Hself; [|done].
  destruct (MultiTaskDNN_init_inv tt mp self Hself)
    as (? & ? & ? & ? & ? & ? & Hparams & _).
  destruct Hparams as (Hshape & ? & ? & ? & ? & ? & ? & ? & ? & ? & ? & ? & ? & _).
  assert (∃ v, mp !! "data_shape" = Some v) as [v Hv].
  { destruct (mp !! "data_shape"); [eauto|done]. }
  repeat (apply elem_of_cons in Hkey as [->|Hkey]; [congruence|]).
  by apply elem_of_nil in Hkey.
Qed.

Lemma MultiTaskDNN_init_missing_parameter_witness :
  @MultiTaskDNN_init demo_engine demo_tasks (delete "momentum" demo_params) true
  = None.
Proof.
  apply (@MultiTaskDNN_init_missing_parameter demo_engine demo_tasks
           (delete "momentum" demo_params) "momentum").
  - repeat (first [apply list_elem_of_here | apply list_elem_of_further]).
  - vm_compute. reflexivity.
Defined.



(** X7: when a task has a kind that is neither classification nor
    regression, the constructor raises with [initialize_raw_model]
    true: no head is added for the task, so the engine refuses the
    output [task{i}] fed by the missing [dense_head{i}]. *)
Theorem MultiTaskDNN_init_other_kind_raises {E : Engine}
    (tt : gmap string string) (mp : gmap string pyval)
    (task kind : string) :
  tt !! task = Some kind →
  kind ≠ "classification" → kind ≠ "regression" →
  MultiTaskDNN_init tt mp true = None.
Proof.
  intros Hkind Hcls Hreg.
  destruct (MultiTaskDNN_init tt mp true) as [self|] eqn:Hself; [|done].
  destruct (MultiTaskDNN_init_inv tt mp self Hself)
    as (? & ? & ? & ? & ? & ? & _ & _ & _ & _ & _ & _ & _ & Hkinds).
  assert (Hin : task ∈ sorted_tasks tt) by (apply sorted_tasks_elem; eauto).
  apply list_elem_of_lookup in Hin as [i Hi].
  destruct (Hkinds i task Hi); congruence.
Qed.

Lemma MultiTaskDNN_init_other_kind_raises_witness :
  @MultiTaskDNN_init demo_engine (<["c" := "ranking"]> demo_tasks) demo_params true
  = None.
Proof.
  apply (@MultiTaskDNN_init_other_kind_raises demo_engine
           (<["c" := "ranking"]> demo_tasks) demo_params "c" "ranking");
    [vm_compute; reflexivity|discriminate|discriminate].
Defined.

(** ** Packaging: what never changes and what raises *)

(** X8: whenever [get_data_dict] returns, with or without labels and
    whatever their shape, the mapping holds [X] under ["input"]: no task
    entry ever replaces it. *)
Theorem get_data_dict_keeps_input {E : Engine} (self : Model) (X : ndarray)
    (y : option ndarray) (dict : gmap string ndarray) :
  get_data_dict self X y = Some dict → dict !! "input" = Some X.
Proof.
  unfold get_data_dict. intros Hrun.
  apply (for_each_preserves (fun d => d !! "input" = Some X) _ _ _ _ Hrun).
  - apply lookup_insert_eq.
  - intros [i task] d1 d2 _ Hbody Hd1. unfold get_data_dict_body in Hbody.
    assert (Hne : task_name i ≠ "input") by apply task_name_not_input.
    destruct (task_types self !! task) as [kind|]; [|done].
    cbn [mbind option_bind] in Hbody.
    destruct y as [y|]; [|by injection Hbody as <-].
    repeat case_decide.
    + destruct (get_column y i) as [col|]; [|done]. cbn in Hbody.
      destruct (to_one_hot col) as [hot|]; [|done]. injection Hbody as <-.
      by rewrite lookup_insert_ne.
    + destruct (get_column y i) as [col|]; [|done]. injection Hbody as <-.
      by rewrite lookup_insert_ne.
    + by injection Hbody as <-.
Qed.

Lemma get_data_dict_keeps_input_witness :
  default ∅ (get_data_dict demo_self demo_X (Some demo_y)) !! "input"
  = Some demo_X.
Proof.
  apply (get_data_dict_keeps_input demo_self demo_X (Some demo_y)).
  vm_compute. reflexivity.
Defined.

(** X9: when the label matrix has no column for a classification or
    regression task (its index is not below the number of columns),
    [get_data_dict] raises; nothing is returned for the other tasks
    either. *)
Theorem get_data_dict_missing_column {E : Engine} (self : Model)
    (X y : ndarray) (n c i : nat) (task : string) :
  shape y = [n; c] →
  sorted_tasks (task_types self) !! i = Some task →
  (c <= i)%nat →
  task_types self !! task = Some "classification"
  ∨ task_types self !! task = Some "regression" →
  get_data_dict self X (Some y) = None.
Proof.
  intros Hs Hi Hc Hkind. unfold get_data_dict.
  apply (for_each_fails _ _ _ (i, task)).
  - by eapply list_elem_of_lookup_2, enumerate_lookup_2.
  - intros d. unfold get_data_dict_body.
    assert (Hcol : get_column y i = None).
    { unfold get_column. rewrite Hs. by rewrite decide_False by lia. }
    destruct Hkind as [-> | ->]; cbn [mbind option_bind].
    + rewrite decide_True by done. by rewrite Hcol.
    + rewrite decide_False, decide_True by done. by rewrite Hcol.
Qed.

Lemma get_data_dict_missing_column_witness :
  get_data_dict demo_self demo_X (Some (mk_ndarray [4; 1] [0; 1; 0; 1]%float))
  = None.
Proof.
  apply (get_data_dict_missing_column demo_self demo_X
           (mk_ndarray [4; 1] [0; 1; 0; 1]%float) 4 1 1 "b");
    [reflexivity|vm_compute; reflexivity|lia|right; vm_compute; reflexivity].
Defined.

(** X10: when the weight matrix has fewer columns than there are tasks,
    [get_sample_weight] raises, and so does [fit_on_batch], before the
    engine is called. *)
Theorem get_sample_weight_missing_column {E : Engine} (self : Model)
    (X y w : ndarray) (n c : nat) :
  shape w = [n; c] →
  c < length (sorted_tasks (task_types self)) →
  get_sample_weight self w = None ∧ fit_on_batch self X y w = None.
Proof.
  intros Hs Hc.
  assert (Hfail : ∀ w' : ndarray, shape w' = [n; c] →
    get_sample_weight self w' = None).
  { intros w' Hs'. unfold get_sample_weight.
    apply (for_each_fails _ _ _ c).
    - apply elem_of_seq. lia.
    - intros d. unfold get_sample_weight_body, get_column. rewrite Hs'.
      by rewrite decide_False by lia. }
  split; [by apply Hfail|].
  unfold fit_on_batch, fit_arguments, np_add.
  rewrite decide_True by done. cbn [mbind option_bind].
  destruct (get_data_dict self X (Some y)); [|done]. cbn [mbind option_bind].
  by rewrite Hfail.
Qed.

Lemma get_sample_weight_missing_column_witness :
  get_sample_weight demo_self (np_ones [4; 1]) = None
  ∧ fit_on_batch demo_self demo_X demo_y (np_ones [4; 1]) = None.
Proof.
  apply (get_sample_weight_missing_column demo_self demo_X demo_y
           (np_ones [4; 1]) 4 1); [reflexivity|vm_compute; lia].
Defined.

Lemma sorted_tasks_length (tt : gmap string string) :
  length (sorted_tasks tt) = size tt.
Proof.
  rewrite sorted_tasks_perm. unfold keys.
  by rewrite length_fmap, length_map_to_list.
Qed.

(** X11: the sample weights are packaged by the number of tasks alone:
    two instances with as many tasks package a weight matrix alike,
    whatever the identifiers and kinds of their tasks (a task of a kind
    that gets no label entry still gets a weight entry). *)
Theorem get_sample_weight_by_count {E : Engine} (self1 self2 : Model)
    (w : ndarray) :
  size (task_types self1) = size (task_types self2) →
  get_sample_weight self1 w = get_sample_weight self2 w.
Proof.
  intros Hsize. unfold get_sample_weight.
  by rewrite !sorted_tasks_length, Hsize.
Qed.

Lemma get_sample_weight_by_count_witness :
  get_sample_weight demo_self demo_w
  = get_sample_weight
      (@mk_Model demo_engine
         (<["x" := "ranking"]> (<["y" := "ranking"]> ∅)) ∅ None) demo_w.
Proof.
  apply (get_sample_weight_by_count demo_self
           (@mk_Model demo_engine
              (<["x" := "ranking"]> (<["y" := "ranking"]> ∅)) ∅ None) demo_w).
  vm_compute. reflexivity.
Defined.

(** ** Predictions: their values and when they cannot be made *)

Lemma argmax_go_bound (l : list float) (mp : float) (best i : nat) :
  best < i → argmax_go mp best i l < i + length l.
Proof.
  revert mp best i. induction l as [|x l IH]; intros mp best i Hb; simpl; [lia|].
  destruct (PrimFloat.is_nan mp); [lia|].
  destruct (negb (PrimFloat.leb x mp)).
  - specialize (IH x i (S i)). lia.
  - specialize (IH mp best (S i)). lia.
Qed.

Lemma argmax_list_bound (l : list float) (c : nat) :
  argmax_list l = Some c → c < length l.
Proof.
  destruct l as [|x l]; [done|]. intros [= <-]. simpl.
  pose proof (argmax_go_bound l x 0 1). lia.
Qed.

(** X12: in the array [predict_on_batch] returns, every entry of the
    column of a classification task is the class 0 or the class 1. *)
Theorem predict_on_batch_classes {E : Engine} (self : Model) (X : ndarray)
    (model : Graph weights) (y_pred_dict : gmap string ndarray)
    (n i r : nat) (task : string) :
  raw_model self = Some model →
  engine_predict_on_batch model {["input" := X]} = Some y_pred_dict →
  shape0 X = Some n →
  (∀ i task, sorted_tasks (task_types self) !! i = Some task →
     ∃ out, y_pred_dict !! task_name i = Some out ∧ wf out ∧
       shape out
       = [n; if decide (task_types self !! task = Some "classification")
             then 2 else 1]) →
  sorted_tasks (task_types self) !! i = Some task →
  task_types self !! task = Some "classification" →
  r < n →
  ∃ y_pred, predict_on_batch self X = Some y_pred ∧
    (data y_pred !! (r * length (sorted_tasks (task_types self)) + i)
     = Some 0%float
     ∨ data y_pred !! (r * length (sorted_tasks (task_types self)) + i)
       = Some 1%float).
Proof.
  intros Hmodel Hengine Hsamples Houtputs Hi Hkind Hr.
  destruct (predict_matrix_entries self X model y_pred_dict n
              Hmodel Hengine Hsamples Houtputs) as (m & Hm & _ & _ & Hentries).
  exists (np_squeeze m). split.
  { unfold predict_on_batch. by rewrite Hm. }
  destruct (Hentries i task r Hi Hr) as (out & Hout & Hcls & _).
  destruct (Hcls Hkind) as (c & Hc & Hentry).
  destruct (Houtputs i task Hi) as (out' & Hout' & Hwf & Hs).
  assert (out' = out) as -> by congruence.
  rewrite decide_True in Hs by done.
  apply argmax_list_bound in Hc. rewrite (get_row_length out n 2 r Hs Hwf Hr) in Hc.
  simpl. rewrite Hentry. destruct c as [|[|c]]; [by left|by right|lia].
Qed.

Lemma predict_on_batch_classes_witness :
  ∃ y_pred, predict_on_batch demo_self demo_X = Some y_pred ∧
    (data y_pred !! (3 * length (sorted_tasks (task_types demo_self)) + 0)
     = Some 0%float
     ∨ data y_pred !! (3 * length (sorted_tasks (task_types demo_self)) + 0)
       = Some 1%float).
Proof.
  apply (predict_on_batch_classes demo_self demo_X
           (mk_Graph [] [] [] None ∅ tt)
           (default ∅ (demo_predict {["input" := demo_X]})) 4 0 3 "a").
  - reflexivity.
  - vm_compute. reflexivity.
  - reflexivity.
  - demo_outputs.
  - vm_compute. reflexivity.
  - vm_compute. reflexivity.
  - lia.
Defined.

(** X13: when the engine's result has no entry under the name of one
    of the tasks, [predict_on_batch] raises. *)
Theorem predict_on_batch_missing_output {E : Engine} (self : Model)
    (X : ndarray) (model : Graph weights) (y_pred_dict : gmap string ndarray)
    (i : nat) (task : string) :
  raw_model self = Some model →
  engine_predict_on_batch model {["input" := X]} = Some y_pred_dict →
  sorted_tasks (task_types self) !! i = Some task →
  y_pred_dict !! task_name i = None →
  predict_on_batch self X = None.
Proof.
  intros Hmodel Hengine Hi Hmissing.
  unfold predict_on_batch, predict_matrix.
  rewrite get_data_dict_inference, insert_empty. cbn [mbind option_bind].
  rewrite Hmodel. cbn [mbind option_bind]. rewrite Hengine.
  cbn [mbind option_bind]. destruct (shape0 X) as [n|]; [|done].
  cbn [mbind option_bind]. rewrite (for_each_fails _ _ _ (i, task)); [done| |].
  - by eapply list_elem_of_lookup_2, enumerate_lookup_2.
  - intros y_pred. unfold predict_body.
    destruct (sorted_tasks_lookup _ _ _ Hi) as [kind ->].
    cbn [mbind option_bind]. rewrite Hmissing. by case_decide.
Qed.

Lemma predict_on_batch_missing_output_witness :
  predict_on_batch
    (@mk_Model demo_engine (<["c" := "regression"]> demo_tasks) ∅
       (Some (mk_Graph [] [] [] None ∅ tt))) demo_X
  = None.
Proof.
  apply (predict_on_batch_missing_output
           (@mk_Model demo_engine (<["c" := "regression"]> demo_tasks) ∅
              (Some (mk_Graph [] [] [] None ∅ tt))) demo_X
           (mk_Graph [] [] [] None ∅ tt)
           (default ∅ (demo_predict {["input" := demo_X]})) 2 "c");
    vm_compute; reflexivity.
Defined.

(** ** Weights *)

Lemma float_zero_plus_eps (x : float) :
  PrimFloat.eqb x 0 = true → PrimFloat.add x eps = eps.
Proof.
  rewrite FloatAxioms.eqb_spec. intros H.
  rewrite <- (FloatAxioms.SF2Prim_Prim2SF x).
  destruct (Prim2SF x) as [s | s | | s m e]; cbn in H; try discriminate;
    try (destruct s; cbn in H; discriminate).
  destruct s; reflexivity.
Qed.

(** X15: a weight that is zero reaches the engine as exactly the
    binary64 value of the literal 0.001: for a zero entry of [w] in row
    [r] and column [i], the sample weight [fit_on_batch] packages under
    [task{i}] holds that float at position [r]. *)
#[warnings="-inexact-float"] Theorem fit_on_batch_zero_weight {E : Engine} (self : Model)
    (X y w : ndarray) (n i r : nat) (x : float) :
  shape y = [n; length (sorted_tasks (task_types self))] → wf y →
  shape w = [n; length (sorted_tasks (task_types self))] → wf w →
  i < length (sorted_tasks (task_types self)) → r < n →
  data w !! (r * length (sorted_tasks (task_types self)) + i) = Some x →
  PrimFloat.eqb x 0 = true →
  ∃ dict sample_weight col,
    fit_arguments self X y w = Some (dict, sample_weight) ∧
    sample_weight !! task_name i = Some (vector col) ∧
    col !! r = Some 0.001%float.
Proof.
  intros Hsy Hwfy Hsw Hwfw Hi Hr Hx Hzero.
  destruct (get_data_dict_labels self X y n Hsy Hwfy) as (dict & Hdict & _).
  set (w' := mk_ndarray (shape w) ((fun x => PrimFloat.add x eps) <$> data w)).
  destruct (get_sample_weight_columns self w' n) as (sw & Hsw' & Hcols & _).
  { done. }
  { unfold wf, w'; simpl. by rewrite length_fmap. }
  destruct (Hcols i Hi) as (col & _ & _ & Hentries & Hlook).
  exists dict, sw, col. split; [|split; [done|]].
  - unfold fit_arguments. rewrite add_eps by done. fold w'. simpl.
    rewrite Hdict. simpl. by rewrite Hsw'.
  - rewrite (Hentries r Hr). unfold w'; simpl.
    rewrite list_lookup_fmap, Hx. simpl. by rewrite float_zero_plus_eps.
Qed.

#[warnings="-inexact-float"] Lemma fit_on_batch_zero_weight_witness :
  ∃ dict sample_weight col,
    fit_arguments demo_self demo_X demo_y (np_zeros [4; 2])
    = Some (dict, sample_weight) ∧
    sample_weight !! task_name 1 = Some (vector col) ∧
    col !! 2 = Some 0.001%float.
Proof.
  apply (fit_on_batch_zero_weight demo_self demo_X demo_y (np_zeros [4; 2])
           4 1 2 0%float); vm_compute; first [reflexivity | lia].
Defined.

(** ** Loading *)

(** X16: [load] succeeds only when both files of the directory exist,
    the engine accepts the architecture text and the weights fit it;
    the instance then keeps its task specification and parameters, and
    its raw model is the loaded one, whatever it was before. *)
Theorem KerasModel_load_inv {E : Engine} {V : Env} (self self' : Model)
    (dir : string) (fs : gmap string string) :
  KerasModel_load self dir fs = Some self' →
  task_types self' = task_types self ∧
  model_params self' = model_params self ∧
  ∃ json_string arch blob loaded,
    fs !! with_ext (splitext (get_model_filename dir)).1 "json" = Some json_string ∧
    model_from_json json_string = Some arch ∧
    fs !! with_ext (splitext (get_model_filename dir)).1 "h5" = Some blob ∧
    load_weights arch blob = Some loaded ∧
    raw_model self' = Some loaded.
Proof.
  unfold KerasModel_load. intros Hload.
  destruct (fs !! with_ext (splitext (get_model_filename dir)).1 "json")
    as [json_string|]; [|done]. cbn [mbind option_bind] in Hload.
  destruct (model_from_json json_string) as [arch|] eqn:Harch; [|done].
  cbn [mbind option_bind] in Hload.
  destruct (fs !! with_ext (splitext (get_model_filename dir)).1 "h5")
    as [blob|]; [|done]. cbn [mbind option_bind] in Hload.
  destruct (load_weights arch blob) as [loaded|] eqn:Hloaded; [|done].
  injection Hload as <-. split; [done|]. split; [done|].
  by exists json_string, arch, blob, loaded.
Qed.

Lemma KerasModel_load_inv_witness :
  ∃ self',
    @KerasModel_load demo_engine demo_env (Model_init demo_tasks demo_params) "out"
      (default ∅ (@KerasModel_save demo_engine demo_env demo_self "out" ∅))
    = Some self' ∧
    task_types self' = demo_tasks ∧ model_params self' = demo_params ∧
    is_Some (raw_model self').
Proof.
  assert (Hload :
    @KerasModel_load demo_engine demo_env (Model_init demo_tasks demo_params) "out"
      (default ∅ (@KerasModel_save demo_engine demo_env demo_self "out" ∅))
    = Some (@mk_Model demo_engine demo_tasks demo_params
              (Some (mk_Graph [] [] [] None ∅ tt))))
    by (vm_compute; reflexivity).
  destruct (@KerasModel_load_inv demo_engine demo_env _ _ _ _ Hload)
    as (Htt & Hmp & _ & _ & _ & loaded & _ & _ & _ & _ & Hraw).
  eexists. split; [exact Hload|].
  split; [exact Htt|]. split; [exact Hmp|]. exists loaded. exact Hraw.
Defined.
